(** * Trace scanners of the geometry-optimisation notebooks

    The notebooks [code/Benzene-GeomOpt.ipynb] and
    [code/Nitrobenzene-GeomOpt_complete.ipynb] define two small functions,
    [plot_R] and [plot_energy], that scan the text file written by the
    optimiser and pull numbers out of it with [str.find], [str.strip],
    [str.split], [str.startswith] and [float].  This development embeds the
    two functions and the Python built-ins they call, and proves what they
    return and when they raise.

    Text is modelled by [string]; a character is read as the code point of the
    same number, so the model covers text whose code points are below 256. *)

From Stdlib Require Import String Ascii List ZArith NArith Lia Bool.
From Stdlib Require Import DecimalString DecimalPos DecimalZ Floats.
Import ListNotations.

Set Warnings "-inexact-float".

Local Open Scope list_scope.
Local Open Scope string_scope.

(** ** Python built-ins on [str] *)

Module Py.

(** [str.isspace] on one character: the code points below 256 that Python
    treats as whitespace are 9-13, 28-31, 32, 133 (NEL) and 160 (NBSP). *)
Definition isspace (c : ascii) : bool :=
  let n := N_of_ascii c in
  ((9 <=? n) && (n <=? 13) || (28 <=? n) && (n <=? 31)
   || (n =? 32) || (n =? 133) || (n =? 160))%N.

(** Leading characters in the class [sp] are dropped. *)
Fixpoint drop_leading (sp : ascii -> bool) (s : string) : string :=
  match s with
  | EmptyString => EmptyString
  | String c s' => if sp c then drop_leading sp s' else s
  end.

(** Trailing characters in the class [sp] are dropped. *)
Fixpoint drop_trailing (sp : ascii -> bool) (s : string) : string :=
  match s with
  | EmptyString => EmptyString
  | String c s' =>
      match drop_trailing sp s' with
      | EmptyString => if sp c then EmptyString else String c EmptyString
      | r => String c r
      end
  end.

(** [s.lstrip()], [s.rstrip()] and [s.strip()] *)
Definition lstrip (s : string) : string := drop_leading isspace s.
Definition rstrip (s : string) : string := drop_trailing isspace s.
Definition strip (s : string) : string := rstrip (lstrip s).

(** The token under construction is emitted when it is not empty. *)
Definition flush (tok : string) : list string :=
  match tok with
  | EmptyString => []
  | _ => [tok]
  end.

(** [s.split()], reading [s] left to right with the current token [tok]:
    runs of whitespace separate tokens and no token is empty. *)
Fixpoint split_from (tok s : string) : list string :=
  match s with
  | EmptyString => flush tok
  | String c s' =>
      if isspace c then (flush tok ++ split_from EmptyString s')%list
      else split_from (tok ++ String c EmptyString) s'
  end.

Definition split (s : string) : list string := split_from EmptyString s.

(** No character of [w] is whitespace. *)
Fixpoint no_space (w : string) : bool :=
  match w with
  | EmptyString => true
  | String c w' => negb (isspace c) && no_space w'
  end.

(** [s.startswith(p)] *)
Definition startswith (s p : string) : bool := prefix p s.

(** [s.find(sub)]: the lowest index at which [sub] occurs in [s], or -1.
    [find_from i] is the search in a suffix of the line that starts at
    index [i]. *)
Fixpoint find_from (i : Z) (s sub : string) : Z :=
  if prefix sub s then i
  else match s with
       | EmptyString => (-1)%Z
       | String _ s' => find_from (i + 1) s' sub
       end.

Definition find (s sub : string) : Z := find_from 0 s sub.

(** [str(n)] for an [int]: the decimal rendering, with a leading minus sign
    for a negative number. *)
Definition str (n : Z) : string := NilZero.string_of_int (Z.to_int n).

(** *** [float(s)] for a [str]

    The accepted texts are, after trimming: an optional sign, then [inf],
    [infinity] or [nan] in any letter case, or a decimal numeral with at least
    one digit, an optional fraction and an optional exponent; single
    underscores may sit between two digits.  The value is the binary64 number
    nearest to the decimal (ties to even), infinite on overflow. *)

(** The characters [float] trims: the C whitespace 9-13 and 32, and the
    whitespace above 127, which it first turns into a blank.  The separators
    28-31 are whitespace for [str.split] but not here. *)
Definition float_space (c : ascii) : bool :=
  let n := N_of_ascii c in
  ((9 <=? n) && (n <=? 13) || (n =? 32) || (n =? 133) || (n =? 160))%N.

Definition isdigit (c : ascii) : bool :=
  let n := N_of_ascii c in ((48 <=? n) && (n <=? 57))%N.

Definition digit_value (c : ascii) : Z := Z.of_N (N_of_ascii c) - 48.

(** Underscores are dropped; one that does not stand between two digits makes
    the text invalid.  [prev] is the character before [s]. *)
Fixpoint drop_underscores (prev : option ascii) (s : string) : option string :=
  match s with
  | EmptyString =>
      match prev with
      | Some "_"%char => None
      | _ => Some EmptyString
      end
  | String c s' =>
      let prev_digit := match prev with Some p => isdigit p | None => false end in
      if Ascii.eqb c "_" then
        if prev_digit then drop_underscores (Some c) s' else None
      else
        match prev with
        | Some "_"%char =>
            if isdigit c
            then option_map (String c) (drop_underscores (Some c) s')
            else None
        | _ => option_map (String c) (drop_underscores (Some c) s')
        end
  end.

Definition parse_sign (s : string) : bool * string :=
  match s with
  | String "-" r => (true, r)
  | String "+" r => (false, r)
  | _ => (false, s)
  end.

(** The longest prefix of digits, and what follows it. *)
Fixpoint take_digits (s : string) : string * string :=
  match s with
  | EmptyString => (EmptyString, EmptyString)
  | String c s' =>
      if isdigit c
      then let '(d, r) := take_digits s' in (String c d, r)
      else (EmptyString, s)
  end.

Fixpoint digits_value (acc : Z) (s : string) : Z :=
  match s with
  | EmptyString => acc
  | String c s' => digits_value (10 * acc + digit_value c) s'
  end.

(** The exponent part, which must reach the end of the text. *)
Definition parse_exponent (s : string) : option Z :=
  match s with
  | EmptyString => Some 0%Z
  | String c r =>
      if Ascii.eqb c "e" || Ascii.eqb c "E" then
        let '(neg, r1) := parse_sign r in
        let '(ds, r2) := take_digits r1 in
        match ds, r2 with
        | String _ _, EmptyString =>
            Some (if neg then - digits_value 0 ds else digits_value 0 ds)%Z
        | _, _ => None
        end
      else None
  end.

(** A decimal numeral as a pair [(m, e)] that stands for [m * 10^e]. *)
Definition parse_decimal (s : string) : option (Z * Z) :=
  let '(ip, r) := take_digits s in
  let '(fp, r') :=
    match r with
    | String "." r1 => take_digits r1
    | _ => (EmptyString, r)
    end in
  match ip ++ fp with
  | EmptyString => None
  | ds =>
      match parse_exponent r' with
      | Some e => Some (digits_value 0 ds, e - Z.of_nat (String.length fp))%Z
      | None => None
      end
  end.

(** The binary64 number nearest to [(-1)^neg * m * 10^e]. *)
Definition round_decimal (neg : bool) (m e : Z) : spec_float :=
  match m with
  | Zpos p =>
      if (0 <=? e)%Z
      then binary_round prec emax neg (p * Z.to_pos (10 ^ e)) 0
      else SFdiv prec emax (S754_finite neg p 0)
                 (S754_finite false (Z.to_pos (10 ^ (- e))) 0)
  | _ => S754_zero neg
  end.

Definition lower (c : ascii) : ascii :=
  let n := N_of_ascii c in
  if ((65 <=? n) && (n <=? 90))%N then ascii_of_N (n + 32) else c.

Fixpoint lower_str (s : string) : string :=
  match s with
  | EmptyString => EmptyString
  | String c s' => String (lower c) (lower_str s')
  end.

Definition float_spec (s : string) : option spec_float :=
  match drop_underscores None
          (drop_trailing float_space (drop_leading float_space s)) with
  | None => None
  | Some t =>
      let '(neg, body) := parse_sign t in
      let l := lower_str body in
      if String.eqb l "inf" || String.eqb l "infinity"
      then Some (S754_infinity neg)
      else if String.eqb l "nan" then Some S754_nan
      else match parse_decimal body with
           | Some (m, e) => Some (round_decimal neg m e)
           | None => None
           end
  end.

(** [float(s)]; [None] stands for the [ValueError] Python raises. *)
Definition float (s : string) : option PrimFloat.float :=
  option_map SF2Prim (float_spec s).

End Py.

(** ** Exceptions *)

Inductive exn : Set :=
| IndexError
| ValueError
| FileNotFoundError.

Inductive result (A : Type) : Type :=
| Return (a : A)
| Raise (e : exn).

Arguments Return {A} a.
Arguments Raise {A} e.

Definition bind {A B : Type} (c : result A) (k : A -> result B) : result B :=
  match c with
  | Return a => k a
  | Raise e => Raise e
  end.

Notation "x <- c ;; k" := (bind c (fun x => k))
  (at level 61, c at next level, right associativity).

(** [l[i]] for a constant index [i >= 0]. *)
Definition getitem {A : Type} (l : list A) (i : nat) : result A :=
  match nth_error l i with
  | Some x => Return x
  | None => Raise IndexError
  end.

(** ** The two extractors

    [float] is a parameter of the embedding: the theorems about the scanners
    hold for every reading of tokens as numbers.  [Py.float] instantiates it
    where a concrete trace is evaluated. *)

Section Extractors.

Variable F : Type.
Variable float : string -> option F.

(** [float(tok)] inside the scanners. *)
Definition to_float (tok : string) : result F :=
  match float tok with
  | Some v => Return v
  | None => Raise ValueError
  end.

(** ['R(' + str(a) + ',' + str(b) + ')'] *)
Definition pair_notation (a b : Z) : string :=
  "R(" ++ Py.str a ++ "," ++ Py.str b ++ ")".

(** The filter of the comprehension in [plot_R]:
    [line.find(pair_notation) > 1 and
     line.strip().split()[1].startswith(pair_notation)].
    The right operand is evaluated only when the left one holds. *)
Definition select_R (pair_notation line : string) : result bool :=
  if (Py.find line pair_notation >? 1)%Z then
    tok <- getitem (Py.split (Py.strip line)) 1 ;;
    Return (Py.startswith tok pair_notation)
  else Return false.

(** [[line.split() for line in f if ...]], line by line. *)
Fixpoint rows_with_R_pairs (pair_notation : string) (f : list string)
  : result (list (list string)) :=
  match f with
  | [] => Return []
  | line :: f' =>
      keep <- select_R pair_notation line ;;
      rows <- rows_with_R_pairs pair_notation f' ;;
      Return (if keep then Py.split line :: rows else rows)
  end.

(** [for item in rows: bond_distances.append(float(item[6]))] *)
Fixpoint append_distances (rows : list (list string)) (bond_distances : list F)
  : result (list F) :=
  match rows with
  | [] => Return bond_distances
  | item :: rows' =>
      tok <- getitem item 6 ;;
      v <- to_float tok ;;
      append_distances rows' (bond_distances ++ [v])%list
  end.

(** [plot_R(a, b)], with [f] the lines of the opened file. *)
Definition plot_R (f : list string) (a b : Z) : result (list F) :=
  let pair_notation := pair_notation a b in
  rows <- rows_with_R_pairs pair_notation f ;;
  row0 <- getitem rows 0 ;;
  tok <- getitem row0 3 ;;
  v <- to_float tok ;;
  append_distances rows ([] ++ [v])%list.

(** The filter of the comprehension in [plot_energy]. *)
Definition select_energy (line : string) : bool :=
  Py.startswith (Py.strip line) "Current energy".

(** [plot_energy()], with [f] the lines of the opened file:
    [[float(line.split()[3]) for line in f
      if line.strip().startswith('Current energy')]]. *)
Fixpoint plot_energy (f : list string) : result (list F) :=
  match f with
  | [] => Return []
  | line :: f' =>
      if select_energy line then
        tok <- getitem (Py.split line) 3 ;;
        v <- to_float tok ;;
        energy_values <- plot_energy f' ;;
        Return (v :: energy_values)
      else plot_energy f'
  end.

(** *** Reading the file

    Both functions open [molecule_name + '_geometry_optimization.dat'] in a
    [with] block and only read it.  A world holds the global [molecule_name]
    and the text files by path; a call takes a world and gives back its outcome
    and the world after the call. *)

Record World : Type := {
  molecule_name : string;
  files : string -> option (list string)
}.

Definition IO (A : Type) : Type := World -> result A * World.

(** [with open(path) as f: body] *)
Definition with_open {A : Type} (path : string)
    (body : list string -> result A) : IO A :=
  fun w =>
    match files w path with
    | Some f => (body f, w)
    | None => (Raise FileNotFoundError, w)
    end.

Definition trace_path (w : World) : string :=
  molecule_name w ++ "_geometry_optimization.dat".

Definition run_plot_R (a b : Z) : IO (list F) :=
  fun w => with_open (trace_path w) (fun f => plot_R f a b) w.

Definition run_plot_energy : IO (list F) :=
  fun w => with_open (trace_path w) plot_energy w.

(** *** Vocabulary of the statements *)

(** A line is selected by [plot_R] when its filter yields [True]. *)
Definition selected_R (tag line : string) : bool :=
  match select_R tag line with
  | Return true => true
  | _ => false
  end.

(** The filter of [plot_R] runs to an answer on the line. *)
Definition filter_answers (tag line : string) : bool :=
  match select_R tag line with
  | Return _ => true
  | Raise _ => false
  end.

(** The number read from the token at index [i] of a line, when the line has
    such a token and it parses. *)
Definition field (i : nat) (line : string) : option F :=
  match nth_error (Py.split line) i with
  | Some tok => float tok
  | None => None
  end.

(** [sub] occurs in [s] at index [i]. *)
Definition occurs_at (i : nat) (sub s : string) : Prop :=
  exists pre suf, s = pre ++ sub ++ suf /\ String.length pre = i.

(** [sub] is a substring of [s]. *)
Definition contains (s sub : string) : Prop :=
  exists i, occurs_at i sub s.

(** The first occurrence of [sub] in [s] is at index [i]. *)
Definition first_occurs_at (i : nat) (sub s : string) : Prop :=
  occurs_at i sub s /\ forall j, occurs_at j sub s -> (i <= j)%nat.

(** Every element of [xs] read through [g] gives the element of [ys] at the
    same place. *)
Definition reads_as {A B : Type} (g : A -> option B) (xs : list A)
    (ys : list B) : Prop :=
  map g xs = map Some ys.

End Extractors.

Arguments to_float {F} float tok.
Arguments append_distances {F} float rows bond_distances.
Arguments plot_R {F} float f a b.
Arguments plot_energy {F} float f.
Arguments run_plot_R {F} float a b.
Arguments run_plot_energy {F} float.
Arguments field {F} float i line.

(** ** Traces used in the examples *)

Module Traces.

(** The lines as a text file hands them over, each with its newline. *)
Definition with_newlines (f : list string) : list string :=
  map (fun line => line ++ String (ascii_of_nat 10) "") f.

(** A step line in the layout of the optimiser's table of internal
    coordinates: number, label, [=], previous value, force, change and new
    value. *)
Definition step_1 : string :=
  "    1 R(1,2)          =      2.631400     -0.002012      0.001234    2.632634".

Definition step_2 : string :=
  "    1 R(1,2)          =      2.632634     -0.000310      0.000201    2.632835".

Definition other_pair : string :=
  "    2 R(1,6)          =      2.631400     -0.002012      0.001234    2.632634".

Definition two_steps : list string :=
  ["    Coordinate    Previous    Force    Change    New"; step_1; other_pair;
   "  Current energy   :      -230.7217410732"; step_2].

(** The tag glued to other characters: one token only. *)
Definition glued : string := "==R(1,2)".

Definition step_then_glued : list string := [step_1; glued].

(** The tag at the very start of the line, and again as second token. *)
Definition leading_tag : string := "R(1,2) R(1,2) = 1.0 0.1 0.2 1.1".

Definition scenario_A : list string :=
  ["  R(1,2)  R(1,2)     =   1.234   ...  5.678  "].

(** Scenario A with one more column, seven tokens in all. *)
Definition scenario_A_seven : list string :=
  ["  R(1,2)  R(1,2)     =   1.234   ...  ...  5.678  "].

Definition energies : list string :=
  ["  Current energy   :      -230.7217410732"; step_1;
   "Current energy = -40.1"; ""; "  Current energy = -40.2"].

(** The same selected lines between other lines. *)
Definition energies_padded : list string :=
  ["Energy summary"; "  Current energy   :      -230.7217410732";
   "Current energy = -40.1"; "  Current energy = -40.2"; glued].

Definition energy_cut_short : list string :=
  ["Current energy = -40.1"; "  Current energy   :"].

Definition energy_not_a_number : list string :=
  ["Current energy   :   n/a"].

(** A line that [plot_R] selects for every [a] and [b]. *)
Definition step_for (a b : Z) : string :=
  "  1 " ++ pair_notation a b ++ " = 1.5 0 0 2.5".

Definition benzene : World :=
  {| molecule_name := "benzene";
     files := fun path =>
       if String.eqb path "benzene_geometry_optimization.dat"
       then Some two_steps else None |}.

End Traces.

(** ** The code around the extractors *)

(** Every character of [s] is in the class [p]. *)
Fixpoint all_chars (p : ascii -> bool) (s : string) : bool :=
  match s with
  | EmptyString => true
  | String c s' => p c && all_chars p s'
  end.

(** A line of [g] is the line of [f] at the same place with whitespace added
    at its end, as a newline or a carriage return and a newline. *)
Definition padded_right (f g : list string) : Prop :=
  Forall2 (fun line line' =>
             exists pad, all_chars Py.isspace pad = true /\ line' = line ++ pad)
          f g.

(** A line of [g] is the line of [f] at the same place with whitespace added
    at both ends. *)
Definition padded (f g : list string) : Prop :=
  Forall2 (fun line line' =>
             exists pad pad',
               all_chars Py.isspace pad = true /\
               all_chars Py.isspace pad' = true /\
               line' = pad ++ line ++ pad')
          f g.

(** *** The cells that plot a series

    After [bond_distances = plot_R(1, 2)] the notebooks run
    [dist_range = max(bond_distances) - min(bond_distances)],
    [plt.scatter(np.arange(len(bond_distances)), bond_distances)] and
    [plt.ylim(top = max(bond_distances) + dist_range*0.15,
              bottom = min(bond_distances) - dist_range*0.15)],
    and the same after [energy_values = plot_energy()].  The comparisons and
    the arithmetic of Python's floats are parameters, and so is the literal
    [0.15]; a figure records what is handed to [plt.scatter] and
    [plt.ylim]. *)

Section Cells.

Variable F : Type.
Variable float : string -> option F.
Variables gt lt : F -> F -> bool.
Variables add sub mul : F -> F -> F.
Variable lit_0_15 : F.

(** [max(values)]: the first item is kept until a later item is greater. *)
Fixpoint max_from (best : F) (rest : list F) : F :=
  match rest with
  | [] => best
  | item :: rest' => max_from (if gt item best then item else best) rest'
  end.

Definition py_max (values : list F) : result F :=
  match values with
  | [] => Raise ValueError
  | first :: rest => Return (max_from first rest)
  end.

(** [min(values)]: the first item is kept until a later item is less. *)
Fixpoint min_from (best : F) (rest : list F) : F :=
  match rest with
  | [] => best
  | item :: rest' => min_from (if lt item best then item else best) rest'
  end.

Definition py_min (values : list F) : result F :=
  match values with
  | [] => Raise ValueError
  | first :: rest => Return (min_from first rest)
  end.

(** [np.arange(n)] *)
Definition arange (n : nat) : list Z := map Z.of_nat (seq 0 n).

Record figure : Type := {
  scatter_x : list Z;
  scatter_y : list F;
  ylim_top : F;
  ylim_bottom : F
}.

(** The statements of a cell after the series is read. *)
Definition plot_series (values : list F) : result figure :=
  hi <- py_max values ;;
  lo <- py_min values ;;
  let value_range := sub hi lo in
  let xs := arange (length values) in
  top_hi <- py_max values ;;
  bottom_lo <- py_min values ;;
  Return {| scatter_x := xs;
            scatter_y := values;
            ylim_top := add top_hi (mul value_range lit_0_15);
            ylim_bottom := sub bottom_lo (mul value_range lit_0_15) |}.



End Cells.

Arguments scatter_x {F} _.
Arguments scatter_y {F} _.
Arguments ylim_top {F} _.
Arguments ylim_bottom {F} _.

(** *** The torsion scan

    The scan notebook freezes two dihedral angles at [P] for every [P] in
    [range(0, 181, 10)], optimises the molecule and collects the angle and the
    energy.  The [psi4] library is a parameter: its state, how an option is
    set, and [optimize], which gives back an energy or raises. *)

Module Torsion.

(** [range(start, stop, step)] for a step that is not zero. *)
Definition range_len (start stop step : Z) : Z :=
  if (0 <? step)%Z then
    if (start <? stop)%Z then (stop - start - 1) / step + 1 else 0
  else
    if (stop <? start)%Z then (start - stop - 1) / (- step) + 1 else 0.

Definition range (start stop step : Z) : list Z :=
  map (fun i => start + Z.of_nat i * step)%Z
      (seq 0 (Z.to_nat (range_len start stop step))).

Definition dihedral1 : string := "2 1 7 8 ".
Definition dihedral2 : string := "6 1 7 9 ".

(** [frozen_dihedral_total] in the pass of the loop for [P]. *)
Definition frozen_dihedral_total (P : Z) : string :=
  let frozen_dihedral1 := (dihedral1 ++ " ") ++ Py.str P in
  let frozen_dihedral2 := (dihedral2 ++ " ") ++ Py.str P in
  (frozen_dihedral1 ++ " ") ++ frozen_dihedral2.

Definition newline : string := String (ascii_of_nat 10) "".

(** [print('\nThe value of the frozen_dihedrals is: ', P)]: the two arguments
    with a blank between them and a newline at the end. *)
Definition printed_angle (P : Z) : string :=
  (newline ++ "The value of the frozen_dihedrals is: ") ++ " " ++ Py.str P
  ++ newline.

Section Scan.

Variable Psi4 : Type.
Variable E : Type.

(** [psi4.set_module_options(module, {key: value})] *)
Variable set_module_options : string -> string -> string -> Psi4 -> Psi4.

(** [psi4.optimize(name, molecule=molecule)]; [None] when it raises. *)
Variable optimize : string -> Psi4 -> option E * Psi4.

(** The variables of the cell, what it printed, and the library. *)
Record scan : Type := {
  phi : list Z;
  energy_values : list E;
  printed : list string;
  psi4 : Psi4
}.

(** One pass of the loop; [None] when [psi4.optimize] raises, with the state
    the exception leaves behind. *)
Definition scan_pass (P : Z) (st : scan) : option scan * scan :=
  let out := (printed st ++ [printed_angle P])%list in
  let lib := set_module_options "optking" "fixed_dihedral"
               (frozen_dihedral_total P) (psi4 st) in
  let lib := set_module_options "optking" "g_convergence" "gau_loose" lib in
  match optimize "scf/3-21G" lib with
  | (Some energy, lib') =>
      let st' := {| phi := (phi st ++ [P])%list;
                    energy_values := (energy_values st ++ [energy])%list;
                    printed := out;
                    psi4 := lib' |} in
      (Some st', st')
  | (None, lib') =>
      (None, {| phi := phi st; energy_values := energy_values st;
                printed := out; psi4 := lib' |})
  end.

(** [for P in angles: ...]; the second component is the state when the loop
    ends or is left by an exception. *)
Fixpoint scan_loop (angles : list Z) (st : scan) : bool * scan :=
  match angles with
  | [] => (true, st)
  | P :: angles' =>
      match scan_pass P st with
      | (Some st', _) => scan_loop angles' st'
      | (None, st') => (false, st')
      end
  end.

(** The cell: the two empty lists, the loop over [range(0, 181, 10)] and the
    last [print]. *)
Definition torsion_scan (lib : Psi4) : bool * scan :=
  let st := {| phi := []; energy_values := []; printed := []; psi4 := lib |} in
  match scan_loop (range 0 181 10) st with
  | (true, st') =>
      (true, {| phi := phi st'; energy_values := energy_values st';
                printed :=
                  (printed st'
                   ++ [("All optimizations complete!" ++ newline)%string])%list;
                psi4 := psi4 st' |})
  | (false, st') => (false, st')
  end.

End Scan.

Arguments phi {Psi4 E} _.
Arguments energy_values {Psi4 E} _.
Arguments printed {Psi4 E} _.
Arguments psi4 {Psi4 E} _.

End Torsion.

(** ** Facts about the built-ins *)

Module PyFacts.
Import Py.

Lemma append_nil_r (s : string) : s ++ "" = s.
Proof. induction s as [|c s IH]; simpl; congruence. Qed.

Lemma append_assoc (s t u : string) : (s ++ t) ++ u = s ++ t ++ u.
Proof. induction s as [|c s IH]; simpl; congruence. Qed.

Lemma prefix_iff (p s : string) :
  prefix p s = true <-> exists suf, s = p ++ suf.
Proof.
  revert s; induction p as [|a p IH]; intros s; simpl.
  - destruct s; simpl; split; eauto.
  - destruct s as [|b s]; simpl.
    + split; [discriminate | intros [suf H]; discriminate].
    + destruct (ascii_dec a b) as [->|Hab].
      * rewrite IH. split; intros [suf H]; exists suf; congruence.
      * split; [discriminate | intros [suf H]; congruence].
Qed.

Lemma prefix_append (p suf : string) : prefix p (p ++ suf) = true.
Proof. apply prefix_iff; eauto. Qed.

(** *** [find] *)

Lemma occurs_at_0 (sub s : string) :
  occurs_at 0 sub s <-> prefix sub s = true.
Proof.
  rewrite prefix_iff. split.
  - intros (pre & suf & -> & Hlen). destruct pre; [|discriminate].
    now exists suf.
  - intros [suf ->]. exists "", suf. auto.
Qed.

Lemma occurs_at_S (j : nat) (sub : string) (c : ascii) (s : string) :
  occurs_at (S j) sub (String c s) <-> occurs_at j sub s.
Proof.
  split.
  - intros (pre & suf & H & Hlen). destruct pre as [|c' pre]; [discriminate|].
    simpl in *. injection H as -> ->. injection Hlen as Hlen.
    exists pre, suf; auto.
  - intros (pre & suf & -> & Hlen). exists (String c pre), suf.
    simpl; auto.
Qed.

Lemma occurs_at_empty (j : nat) (sub : string) :
  occurs_at j sub "" -> j = 0%nat /\ sub = "".
Proof.
  intros (pre & suf & H & Hlen). destruct pre; [|discriminate].
  destruct sub; [|discriminate]. auto.
Qed.

(** What [find_from] computes: -1 when [sub] does not occur in [s], and the
    start index plus the place of the first occurrence otherwise. *)
Lemma find_from_spec (s sub : string) : forall i : Z,
  (find_from i s sub = (-1)%Z /\ forall j, ~ occurs_at j sub s) \/
  (exists n, find_from i s sub = (i + Z.of_nat n)%Z /\ first_occurs_at n sub s).
Proof.
  induction s as [|c s IH]; intros i; cbn [find_from].
  - destruct (prefix sub "") eqn:Hp.
    + right. exists 0%nat. split; [lia|]. split; [now apply occurs_at_0 | lia].
    + left. split; [reflexivity|]. intros j Hj.
      apply occurs_at_empty in Hj as [-> ->]. discriminate.
  - destruct (prefix sub (String c s)) eqn:Hp.
    + right. exists 0%nat. split; [lia|]. split; [now apply occurs_at_0 | lia].
    + destruct (IH (i + 1)%Z) as [[Hf Hno] | (n & Hf & Hocc & Hmin)].
      * left. split; [exact Hf|]. intros [|j] Hj.
        -- apply occurs_at_0 in Hj. congruence.
        -- apply occurs_at_S in Hj. exact (Hno j Hj).
      * right. exists (S n). split; [lia|]. split.
        -- now apply occurs_at_S.
        -- intros [|j] Hj.
           ++ apply occurs_at_0 in Hj. congruence.
           ++ apply occurs_at_S in Hj. apply Hmin in Hj. lia.
Qed.

Lemma first_occurs_at_unique (n m : nat) (sub s : string) :
  first_occurs_at n sub s -> first_occurs_at m sub s -> n = m.
Proof.
  intros [Hn Hnmin] [Hm Hmmin]. apply Hnmin in Hm. apply Hmmin in Hn. lia.
Qed.

Lemma find_first (s sub : string) (n : nat) :
  first_occurs_at n sub s -> find s sub = Z.of_nat n.
Proof.
  intros Hn. unfold find.
  destruct (find_from_spec s sub 0) as [[_ Hno] | (m & Hf & Hm)].
  - destruct Hn as [Hn _]. now apply Hno in Hn.
  - rewrite Hf. rewrite (first_occurs_at_unique _ _ _ _ Hn Hm). lia.
Qed.

Lemma find_absent (s sub : string) :
  ~ contains s sub -> find s sub = (-1)%Z.
Proof.
  intros Hno. unfold find.
  destruct (find_from_spec s sub 0) as [[Hf _] | (m & _ & [Hm _])]; [exact Hf|].
  exfalso. apply Hno. now exists m.
Qed.

(** The left operand of the filter of [plot_R]. *)
Lemma find_gt_1 (s sub : string) :
  (find s sub >? 1)%Z = true <->
  exists n, first_occurs_at n sub s /\ (2 <= n)%nat.
Proof.
  unfold find.
  destruct (find_from_spec s sub 0) as [[Hf Hno] | (m & Hf & Hm)]; rewrite Hf.
  - split; [discriminate|]. intros (n & [Hn _] & _). now apply Hno in Hn.
  - rewrite Z.gtb_gt. split.
    + intros H. exists m. split; [exact Hm | lia].
    + intros (n & Hn & Hle).
      rewrite (first_occurs_at_unique _ _ _ _ Hm Hn). lia.
Qed.

(** *** [strip] and [split] *)

Lemma split_from_cons (tok : string) (c : ascii) (s : string) :
  split_from tok (String c s) =
  if isspace c then (flush tok ++ split_from "" s)%list
  else split_from (tok ++ String c "") s.
Proof. reflexivity. Qed.

Lemma split_from_lstrip (s : string) :
  split_from "" (lstrip s) = split_from "" s.
Proof.
  unfold lstrip. induction s as [|c s IH]; [reflexivity|].
  cbn [drop_leading split_from]. destruct (isspace c) eqn:Hc; [exact IH|].
  cbn [split_from]. now rewrite Hc.
Qed.

Lemma split_from_rstrip (s : string) : forall tok,
  split_from tok (rstrip s) = split_from tok s.
Proof.
  unfold rstrip. induction s as [|c s IH]; intros tok; [reflexivity|].
  cbn [drop_trailing]. destruct (drop_trailing isspace s) as [|a r] eqn:Hr.
  - cbn [split_from]. destruct (isspace c) eqn:Hc.
    + rewrite <- IH. cbn [split_from flush]. now rewrite app_nil_r.
    + cbn [split_from]. rewrite Hc, <- IH. reflexivity.
  - rewrite (split_from_cons tok c s), (split_from_cons tok c (String a r)).
    destruct (isspace c); now rewrite IH.
Qed.

(** Trimming a line does not change its tokens. *)
Lemma split_strip (s : string) : split (strip s) = split s.
Proof.
  unfold split, strip. now rewrite split_from_rstrip, split_from_lstrip.
Qed.

Lemma split_from_word (w : string) : forall tok s,
  no_space w = true -> split_from tok (w ++ s) = split_from (tok ++ w) s.
Proof.
  induction w as [|c w IH]; intros tok s Hw.
  - now rewrite append_nil_r.
  - simpl in Hw. apply andb_prop in Hw as [Hc Hw].
    apply negb_true_iff in Hc. cbn [append split_from]. rewrite Hc.
    rewrite IH by exact Hw. now rewrite append_assoc.
Qed.

Lemma no_space_append (s t : string) :
  no_space (s ++ t) = no_space s && no_space t.
Proof.
  induction s as [|c s IH]; [reflexivity|].
  simpl. now rewrite IH, andb_assoc.
Qed.

(** *** [str] *)

Lemma no_space_uint (d : Decimal.uint) :
  no_space (NilEmpty.string_of_uint d) = true.
Proof. induction d; simpl; auto. Qed.

Lemma no_space_str (n : Z) : no_space (str n) = true.
Proof.
  unfold str. destruct (Z.to_int n) as [d|d]; simpl;
    destruct d; simpl; auto using no_space_uint.
Qed.

(** [str n] is a decimal numeral that reads back as [n]. *)
Lemma str_decimal (n : Z) :
  option_map Z.of_int (NilZero.int_of_string (str n)) = Some n.
Proof.
  unfold str. rewrite NilZero.isi.
  - simpl. now rewrite DecimalZ.of_to.
  - destruct n; simpl; try discriminate.
    intros [= H]. now apply DecimalPos.Unsigned.to_uint_nonnil in H.
  - destruct n; simpl; try discriminate.
    intros [= H]. now apply DecimalPos.Unsigned.to_uint_nonnil in H.
Qed.

Lemma str_negative (p : positive) :
  str (Zneg p) = String "-" (str (Zpos p)).
Proof. reflexivity. Qed.

End PyFacts.

(** ** Facts about the extractors *)

Section ExtractorFacts.
Import Py PyFacts.

Variable F : Type.
Variable float : string -> option F.

Lemma reads_as_length {A B : Type} (g : A -> option B) (xs : list A)
    (ys : list B) :
  reads_as g xs ys -> length ys = length xs.
Proof.
  unfold reads_as. intros H. apply (f_equal (@length _)) in H.
  now rewrite !length_map in H.
Qed.

Lemma reads_as_exists {A B : Type} (g : A -> option B) (xs : list A) :
  (forall x, In x xs -> exists y, g x = Some y) ->
  exists ys, reads_as g xs ys.
Proof.
  unfold reads_as. induction xs as [|x xs IH]; intros H.
  - now exists [].
  - destruct (H x (or_introl eq_refl)) as [y Hy].
    destruct IH as [ys Hys]; [intros x' Hx'; apply H; now right|].
    exists (y :: ys). simpl. now rewrite Hy, Hys.
Qed.

(** *** The filter of [plot_R] *)

Lemma select_R_raise (tag line : string) (e : exn) :
  select_R tag line = Raise e -> e = IndexError.
Proof.
  unfold select_R, getitem.
  destruct (find line tag >? 1)%Z; [|discriminate].
  destruct (nth_error (split (strip line)) 1); simpl; congruence.
Qed.

Lemma select_R_true (tag line : string) :
  select_R tag line = Return true <->
  (find line tag >? 1)%Z = true /\
  exists tok, nth_error (split (strip line)) 1 = Some tok /\
              startswith tok tag = true.
Proof.
  unfold select_R, getitem.
  destruct (find line tag >? 1)%Z.
  - destruct (nth_error (split (strip line)) 1) as [tok|]; simpl.
    + split.
      * intros [= H]. eauto.
      * intros (_ & tok' & [= <-] & H). now rewrite H.
    + split; [discriminate | intros (_ & tok' & [=] & _)].
  - split; [discriminate | intros [[=] _]].
Qed.

(** The filter raises exactly on a line in which the tag first occurs at index
    2 or later and which has fewer than two tokens. *)
Lemma filter_answers_false (tag line : string) :
  filter_answers tag line = false <->
  exists i, first_occurs_at i tag line /\ (2 <= i)%nat /\
            (length (split line) < 2)%nat.
Proof.
  unfold filter_answers, select_R, getitem. rewrite split_strip.
  destruct (find line tag >? 1)%Z eqn:Hfind.
  - apply find_gt_1 in Hfind as (i & Hi & Hle).
    destruct (nth_error (split line) 1) as [tok|] eqn:Hnth; cbn [bind].
    + split; [discriminate|]. intros (_ & _ & _ & Hlen).
      assert (nth_error (split line) 1 <> None) as Hsome by congruence.
      apply nth_error_Some in Hsome. lia.
    + split; [|reflexivity]. intros _. exists i.
      apply nth_error_None in Hnth. repeat split; try apply Hi; lia.
  - split; [discriminate|]. intros (i & Hi & Hle & _).
    assert (Htrue : (find line tag >? 1)%Z = true)
      by (apply find_gt_1; eauto).
    congruence.
Qed.

(** The comprehension either meets a line on which the filter raises, or
    keeps the tokens of the selected lines in order. *)
Lemma rows_with_R_pairs_spec (tag : string) (f : list string) :
  (forallb (filter_answers tag) f = true /\
   rows_with_R_pairs tag f = Return (map split (filter (selected_R tag) f)))
  \/
  (forallb (filter_answers tag) f = false /\
   rows_with_R_pairs tag f = Raise IndexError).
Proof.
  induction f as [|line f IH]; [now left|].
  cbn [rows_with_R_pairs forallb filter].
  unfold filter_answers at 1 3, selected_R at 1.
  destruct (select_R tag line) as [keep|e] eqn:Hsel; cbn [bind andb].
  - destruct IH as [[Hall ->] | [Hall ->]]; [left | now right].
    split; [exact Hall|]. now destruct keep.
  - right. now rewrite (select_R_raise _ _ _ Hsel).
Qed.

(** *** The loop of [plot_R] *)

Lemma field_getitem (i : nat) (line : string) (v : F) :
  field float i line = Some v ->
  exists tok, getitem (split line) i = Return tok /\
              to_float float tok = Return v.
Proof.
  unfold field, getitem, to_float.
  destruct (nth_error (split line) i) as [tok|]; [|discriminate].
  intros H. exists tok. now rewrite H.
Qed.

Lemma append_distances_reads (lines : list string) :
  forall (bond_distances vs : list F),
    reads_as (field float 6) lines vs ->
    append_distances float (map split lines) bond_distances =
    Return (bond_distances ++ vs)%list.
Proof.
  unfold reads_as.
  induction lines as [|line lines IH]; intros acc vs H.
  - destruct vs; [|discriminate]. simpl. now rewrite app_nil_r.
  - destruct vs as [|v vs]; [discriminate|]. simpl in H.
    injection H as Hv Hvs.
    apply field_getitem in Hv as (tok & Hget & Htok).
    cbn [map append_distances]. rewrite Hget. cbn [bind].
    rewrite Htok. cbn [bind].
    rewrite (IH _ vs Hvs). now rewrite <- app_assoc.
Qed.

(** *** [plot_energy] *)

Lemma plot_energy_filter (f : list string) :
  plot_energy float f = plot_energy float (filter select_energy f).
Proof.
  induction f as [|line f IH]; [reflexivity|].
  cbn [plot_energy filter]. destruct (select_energy line) eqn:Hsel.
  - cbn [plot_energy]. now rewrite Hsel, IH.
  - exact IH.
Qed.

Lemma plot_energy_reads (f : list string) : forall vs,
  reads_as (field float 3) (filter select_energy f) vs ->
  plot_energy float f = Return vs.
Proof.
  unfold reads_as.
  induction f as [|line f IH]; intros vs H.
  - destruct vs; [reflexivity | discriminate].
  - cbn [plot_energy filter] in *. destruct (select_energy line).
    + destruct vs as [|v vs]; [discriminate|]. simpl in H.
      injection H as Hv Hvs.
      apply field_getitem in Hv as (tok & Hget & Htok).
      rewrite Hget. cbn [bind]. rewrite Htok. cbn [bind].
      now rewrite (IH vs Hvs).
    + now apply IH.
Qed.

Lemma plot_energy_selected (line : string) :
  select_energy line = true <->
  exists rest, strip line = "Current energy" ++ rest.
Proof. unfold select_energy, startswith. apply prefix_iff. Qed.

(** *** What [plot_R] returns *)

(** C1, for traces on which the filter raises on no line.  Take a trace on
    which the filter of [plot_R] raises on no line and which has exactly
    [k >= 1] selected lines for the tag of [a] and [b], each with at least 7
    tokens whose tokens 3 and 6 parse.  Then
    [plot_R] returns [k + 1] numbers: the token 3 of the first selected line,
    then, in order, the token 6 of every selected line. *)
Theorem plot_R_returns (f : list string) (a b : Z) (k : nat) :
  forallb (filter_answers (pair_notation a b)) f = true ->
  length (filter (selected_R (pair_notation a b)) f) = k ->
  (1 <= k)%nat ->
  (forall line, In line (filter (selected_R (pair_notation a b)) f) ->
     (7 <= length (split line))%nat /\
     (exists v, field float 3 line = Some v) /\
     (exists v, field float 6 line = Some v)) ->
  exists line0 v0 vs,
    hd_error (filter (selected_R (pair_notation a b)) f) = Some line0 /\
    field float 3 line0 = Some v0 /\
    reads_as (field float 6) (filter (selected_R (pair_notation a b)) f) vs /\
    plot_R float f a b = Return (v0 :: vs) /\
    length (v0 :: vs) = (k + 1)%nat.
Proof.
  intros Hall Hlen Hk Hsel.
  destruct (rows_with_R_pairs_spec (pair_notation a b) f)
    as [[_ Hrows] | [Hno _]]; [|congruence].
  remember (filter (selected_R (pair_notation a b)) f) as sel eqn:Hf.
  destruct sel as [|line0 sel]; [simpl in Hlen; lia|].
  destruct (Hsel line0 (or_introl eq_refl)) as (_ & [v0 Hv0] & _).
  destruct (reads_as_exists (field float 6) (line0 :: sel)) as [vs Hvs].
  { intros x Hx. now destruct (Hsel x Hx) as (_ & _ & H). }
  exists line0, v0, vs. repeat split; auto.
  - unfold plot_R. rewrite Hrows. cbn [bind].
    change (getitem (map split (line0 :: sel)) 0) with (Return (split line0)).
    cbn [bind].
    destruct (field_getitem _ _ _ Hv0) as (tok & Hget & Htok).
    rewrite Hget. cbn [bind]. rewrite Htok. cbn [bind].
    now rewrite (append_distances_reads _ _ vs Hvs).
  - cbn [length]. rewrite (reads_as_length _ _ _ Hvs), Hlen. lia.
Qed.

(** C2, with the guard [find > 1] of the code in place of the substring
    test.  The filter of [plot_R] selects a line exactly when the first
    occurrence of the tag in the line starts at index 2 or later and the second
    token of the trimmed line starts with the tag.  A line that contains the
    tag and whose second token does not start with it is not selected. *)
Theorem select_R_selects (tag line : string) :
  (select_R tag line = Return true <->
   (exists i, first_occurs_at i tag line /\ (2 <= i)%nat) /\
   (exists tok rest,
      nth_error (split (strip line)) 1 = Some tok /\ tok = tag ++ rest))
  /\
  (contains line tag ->
   (forall tok rest,
      nth_error (split (strip line)) 1 = Some tok -> tok <> tag ++ rest) ->
   select_R tag line <> Return true).
Proof.
  assert (Hiff : select_R tag line = Return true <->
   (exists i, first_occurs_at i tag line /\ (2 <= i)%nat) /\
   (exists tok rest,
      nth_error (split (strip line)) 1 = Some tok /\ tok = tag ++ rest)).
  { rewrite select_R_true, find_gt_1. unfold startswith.
    split; intros [Hfind (tok & H)]; (split; [exact Hfind|]).
    - destruct H as [Hnth Hp]. apply prefix_iff in Hp as [rest ->]. eauto.
    - destruct H as (rest & Hnth & Htok). exists tok.
      split; [exact Hnth | rewrite Htok; apply prefix_append]. }
  split; [exact Hiff|].
  intros _ Hsecond Hsel. apply Hiff in Hsel as [_ (tok & rest & Hnth & Htok)].
  exact (Hsecond tok rest Hnth Htok).
Qed.

(** C4.  On a trace without a selected line for the tag of [a] and [b],
    [plot_R] raises [IndexError] and returns no sequence. *)
Theorem plot_R_no_selected_line (f : list string) (a b : Z) :
  filter (selected_R (pair_notation a b)) f = [] ->
  plot_R float f a b = Raise IndexError.
Proof.
  intros Hnone. unfold plot_R.
  destruct (rows_with_R_pairs_spec (pair_notation a b) f)
    as [[_ ->] | [_ ->]]; [|reflexivity].
  now rewrite Hnone.
Qed.

(** C8.  A line in which the tag first occurs at index 2 or later and which
    has fewer than two tokens makes the filter of [plot_R] raise [IndexError],
    although the line is not selected; a trace with a line on which the filter
    raises makes [plot_R] raise [IndexError]; and ["==R(1,2)"] is such a line
    for [a = 1], [b = 2]. *)
Theorem select_R_raises_on_single_token :
  (forall tag line i,
     first_occurs_at i tag line -> (2 <= i)%nat ->
     (length (split line) < 2)%nat ->
     select_R tag line = Raise IndexError /\ selected_R tag line = false) /\
  (forall f a b line,
     In line f -> select_R (pair_notation a b) line = Raise IndexError ->
     plot_R float f a b = Raise IndexError) /\
  first_occurs_at 2 (pair_notation 1 2) Traces.glued /\
  length (split Traces.glued) = 1%nat /\
  select_R (pair_notation 1 2) Traces.glued = Raise IndexError /\
  plot_R float [Traces.glued] 1 2 = Raise IndexError.
Proof.
  assert (Hraise : forall f a b line,
     In line f -> select_R (pair_notation a b) line = Raise IndexError ->
     plot_R float f a b = Raise IndexError).
  { intros f a b line Hin Hsel. unfold plot_R.
    destruct (rows_with_R_pairs_spec (pair_notation a b) f)
      as [[Hall _] | [_ ->]]; [|reflexivity].
    rewrite forallb_forall in Hall. specialize (Hall line Hin).
    unfold filter_answers in Hall. now rewrite Hsel in Hall. }
  split; [|split; [exact Hraise|]].
  - intros tag line i Hi Hle Hlen.
    assert (Hsel : select_R tag line = Raise IndexError).
    { unfold select_R.
      replace (find line tag >? 1)%Z with true
        by (symmetry; apply find_gt_1; eauto).
      rewrite split_strip. unfold getitem.
      destruct (nth_error (split line) 1) eqn:Hnth; [|reflexivity].
      assert (nth_error (split line) 1 <> None) as Hsome by congruence.
      apply nth_error_Some in Hsome. lia. }
    split; [exact Hsel|]. unfold selected_R. now rewrite Hsel.
  - assert (Hglued : select_R (pair_notation 1 2) Traces.glued
                     = Raise IndexError) by reflexivity.
    split; [split|split; [reflexivity|split; [exact Hglued|]]].
    + now exists "==", "".
    + intros [|[|j]] Hj; [| |lia].
      * apply occurs_at_0 in Hj. discriminate.
      * apply occurs_at_S, occurs_at_0 in Hj. discriminate.
    + apply (Hraise _ _ _ Traces.glued); [now left | exact Hglued].
Qed.

(** [plot_R] raises nothing but [IndexError] and [ValueError]. *)
Lemma append_distances_raise (rows : list (list string)) :
  forall (bond_distances : list F) (e : exn),
    append_distances float rows bond_distances = Raise e ->
    e = IndexError \/ e = ValueError.
Proof.
  induction rows as [|item rows IH]; intros acc e; cbn [append_distances].
  - discriminate.
  - unfold getitem, to_float.
    destruct (nth_error item 6) as [tok|]; cbn [bind]; [|intros [= <-]; auto].
    destruct (float tok); cbn [bind]; [apply IH | intros [= <-]; auto].
Qed.

Lemma plot_R_raise (f : list string) (a b : Z) (e : exn) :
  plot_R float f a b = Raise e -> e = IndexError \/ e = ValueError.
Proof.
  unfold plot_R.
  destruct (rows_with_R_pairs_spec (pair_notation a b) f)
    as [[_ ->] | [_ ->]]; cbn [bind]; [|intros [= <-]; auto].
  unfold getitem at 1.
  destruct (nth_error _ 0) as [row0|]; cbn [bind]; [|intros [= <-]; auto].
  unfold getitem at 1, to_float.
  destruct (nth_error row0 3) as [tok|]; cbn [bind]; [|intros [= <-]; auto].
  destruct (float tok); cbn [bind]; [|intros [= <-]; auto].
  apply append_distances_raise.
Qed.

(** *** What [plot_energy] returns *)

(** C5, for traces whose selected lines can be read.  On a trace in which
    every line whose trimmed content
    starts with ["Current energy"] has a token 3 that parses, [plot_energy]
    returns, in order, the number at token 3 of each such line; the length of
    the result is the count of such lines, and with no such line the result is
    the empty sequence. *)
Theorem plot_energy_returns (f : list string) :
  (forall line, In line (filter select_energy f) ->
     exists v, field float 3 line = Some v) ->
  exists vs,
    plot_energy float f = Return vs /\
    reads_as (field float 3) (filter select_energy f) vs /\
    length vs = length (filter select_energy f) /\
    (filter select_energy f = [] -> vs = []).
Proof.
  intros Hgood.
  destruct (reads_as_exists (field float 3) _ Hgood) as [vs Hvs].
  exists vs. split; [now apply plot_energy_reads|].
  split; [exact Hvs|]. split; [exact (reads_as_length _ _ _ Hvs)|].
  intros Hnone. pose proof (reads_as_length _ _ _ Hvs) as Hlen.
  rewrite Hnone in Hlen. now destruct vs.
Qed.

(** C6.  When some selected line of the trace has fewer than 4 tokens, or a
    token 3 that does not parse, [plot_energy] raises and returns no sequence:
    [IndexError] for a selected line that is too short, [ValueError] for one
    whose token 3 does not parse. *)
Theorem plot_energy_raises (f : list string) (line : string) :
  In line f -> select_energy line = true ->
  ((length (split line) < 4)%nat \/
   exists tok, nth_error (split line) 3 = Some tok /\ float tok = None) ->
  exists e bad,
    plot_energy float f = Raise e /\ In bad f /\ select_energy bad = true /\
    ((e = IndexError /\ (length (split bad) < 4)%nat) \/
     (e = ValueError /\
      exists tok, nth_error (split bad) 3 = Some tok /\ float tok = None)).
Proof.
  intros Hin Hsel Hbad.
  induction f as [|line' f IH]; [contradiction|].
  cbn [plot_energy]. destruct (select_energy line') eqn:Hsel'.
  - unfold getitem, to_float.
    destruct (nth_error (split line') 3) as [tok|] eqn:Hnth; cbn [bind].
    + destruct (float tok) as [v|] eqn:Hv; cbn [bind].
      * destruct Hin as [-> | Hin].
        -- exfalso. destruct Hbad as [Hshort | (tok' & Htok' & Hnone)].
           ++ assert (nth_error (split line) 3 <> None) as Hsome by congruence.
              apply nth_error_Some in Hsome. lia.
           ++ congruence.
        -- destruct (IH Hin) as (e & bad & -> & Hbin & Hbsel & Hcause).
           exists e, bad. cbn [bind]. repeat split; auto. now right.
      * exists ValueError, line'. repeat split; auto; [now left|].
        right. split; [reflexivity|]. now exists tok.
    + exists IndexError, line'. repeat split; auto; [now left|].
      left. split; [reflexivity|]. apply nth_error_None in Hnth. lia.
  - destruct Hin as [-> | Hin]; [congruence|].
    destruct (IH Hin) as (e & bad & He & Hbin & Hbsel & Hcause).
    exists e, bad. repeat split; auto. now right.
Qed.

(** C9.  [plot_energy] depends on the selected lines only: two traces with
    the same selected lines, in the same order, have the same outcome;
    inserting or removing a line that is not selected, or replacing it by
    another line that is not selected, leaves the outcome as it is. *)
Theorem plot_energy_selected_only (f g : list string) :
  (filter select_energy f = filter select_energy g ->
   plot_energy float f = plot_energy float g) /\
  (forall line, select_energy line = false ->
     plot_energy float (f ++ line :: g) = plot_energy float (f ++ g)) /\
  (forall line line', select_energy line = false ->
     select_energy line' = false ->
     plot_energy float (f ++ line :: g) = plot_energy float (f ++ line' :: g)).
Proof.
  assert (Hdrop : forall line, select_energy line = false ->
            filter select_energy (f ++ line :: g)
            = filter select_energy (f ++ g)).
  { intros line Hline. rewrite !filter_app. cbn [filter]. now rewrite Hline. }
  split; [|split].
  - intros Hsame.
    now rewrite (plot_energy_filter f), (plot_energy_filter g), Hsame.
  - intros line Hline.
    rewrite (plot_energy_filter (f ++ line :: g)), (plot_energy_filter (f ++ g)).
    now rewrite Hdrop.
  - intros line line' Hline Hline'.
    rewrite (plot_energy_filter (f ++ line :: g)).
    rewrite (plot_energy_filter (f ++ line' :: g)).
    now rewrite !Hdrop.
Qed.

(** *** Reading the file twice *)

Lemma with_open_world {A : Type} (path : string)
    (body : list string -> result A) (w : World) :
  snd (with_open path body w) = w.
Proof. unfold with_open. now destruct (files w path). Qed.

(** C7.  A call of [plot_R] or of [plot_energy] leaves the world as it found
    it, so a second call with the same arguments, made after the first, has
    the same outcome as the first. *)
Theorem extractors_deterministic (w : World) (a b : Z) :
  (snd (run_plot_R float a b w) = w /\
   fst (run_plot_R float a b (snd (run_plot_R float a b w)))
   = fst (run_plot_R float a b w)) /\
  (snd (run_plot_energy float w) = w /\
   fst (run_plot_energy float (snd (run_plot_energy float w)))
   = fst (run_plot_energy float w)).
Proof.
  assert (HR : snd (run_plot_R float a b w) = w)
    by apply with_open_world.
  assert (HE : snd (run_plot_energy float w) = w)
    by apply with_open_world.
  now rewrite HR, HE.
Qed.

End ExtractorFacts.

(** ** The extractors on concrete traces, with Python's [float] *)

Section Concrete.
Import Py PyFacts Traces.

Lemma no_space_pair_notation (a b : Z) : no_space (pair_notation a b) = true.
Proof.
  unfold pair_notation. now rewrite !no_space_append, !no_space_str.
Qed.

Lemma find_from_skip (i : Z) (c : ascii) (s sub : string) :
  prefix sub (String c s) = false ->
  find_from i (String c s) sub = find_from (i + 1) s sub.
Proof. intros H. cbn [find_from]. now rewrite H. Qed.

Lemma find_from_here (i : Z) (s sub : string) :
  prefix sub s = true -> find_from i s sub = i.
Proof. intros H. destruct s; cbn [find_from]; now rewrite H. Qed.

Lemma find_step_for (a b : Z) : find (step_for a b) (pair_notation a b) = 4%Z.
Proof.
  unfold find, step_for.
  change ("  1 " ++ pair_notation a b ++ " = 1.5 0 0 2.5")
    with (String " " (String " " (String "1" (String " "
           (pair_notation a b ++ " = 1.5 0 0 2.5"))))).
  rewrite !find_from_skip by reflexivity.
  now rewrite find_from_here by apply prefix_append.
Qed.

Lemma split_step_for (a b : Z) :
  split (step_for a b)
  = ["1"; pair_notation a b; "="; "1.5"; "0"; "0"; "2.5"].
Proof.
  unfold split, step_for.
  assert (Hflush : flush (pair_notation a b) = [pair_notation a b])
    by reflexivity.
  pose proof (no_space_pair_notation a b) as Hword.
  set (tag := pair_notation a b) in *. clearbody tag.
  change (split_from "" ("  1 " ++ tag ++ " = 1.5 0 0 2.5"))
    with ("1" :: split_from "" (tag ++ " = 1.5 0 0 2.5")).
  rewrite (split_from_word tag "" _ Hword).
  change (split_from ("" ++ tag) " = 1.5 0 0 2.5")
    with (flush tag ++ ["="; "1.5"; "0"; "0"; "2.5"])%list.
  now rewrite Hflush.
Qed.

Lemma select_R_step_for (a b : Z) :
  select_R (pair_notation a b) (step_for a b) = Return true.
Proof.
  unfold select_R. rewrite find_step_for, split_strip, split_step_for.
  cbn [Z.gtb Z.compare Pos.compare Pos.compare_cont getitem nth_error bind].
  unfold startswith.
  rewrite <- (append_nil_r (pair_notation a b)) at 2.
  now rewrite prefix_append.
Qed.

Lemma plot_R_step_for (a b : Z) :
  plot_R Py.float [step_for a b] a b = Return [1.5; 2.5]%float.
Proof.
  unfold plot_R. cbn [rows_with_R_pairs].
  rewrite select_R_step_for, split_step_for.
  vm_compute. reflexivity.
Qed.

(** *** Scenario A *)

(** C3, as the code runs it.  The line of scenario A has six tokens: [plot_R]
    reads 1.234
    at index 3 and then raises [IndexError] at index 6.  With one more column
    before the last token the result is [1.234, 5.678]. *)
Theorem scenario_A_outcome :
  map split scenario_A = [["R(1,2)"; "R(1,2)"; "="; "1.234"; "..."; "5.678"]] /\
  plot_R Py.float scenario_A 1 2 = Raise IndexError /\
  plot_R Py.float (with_newlines scenario_A) 1 2 = Raise IndexError /\
  plot_R Py.float scenario_A_seven 1 2 = Return [1.234; 5.678]%float.
Proof. repeat split; vm_compute; reflexivity. Qed.

(** Scenario A as the notebooks' [plot_R] runs it: no sequence is returned,
    with or without the newline at the end of the line. *)
Lemma scenario_A_not_returned :
  plot_R Py.float scenario_A 1 2 <> Return [1.234; 5.678]%float /\
  plot_R Py.float (with_newlines scenario_A) 1 2
  <> Return [1.234; 5.678]%float.
Proof.
  replace (plot_R Py.float scenario_A 1 2)
    with (@Raise (list PrimFloat.float) IndexError)
    by (vm_compute; reflexivity).
  replace (plot_R Py.float (with_newlines scenario_A) 1 2)
    with (@Raise (list PrimFloat.float) IndexError)
    by (vm_compute; reflexivity).
  split; discriminate.
Qed.

(** *** Any two integers *)

(** C10.  For all integers [a] and [b], of any sign, the tag is ["R("], the
    decimal numeral of [a], [","], the decimal numeral of [b] and [")"];
    [plot_R] raises nothing but the [IndexError] and [ValueError] of the scan;
    and there is a trace on which it returns a sequence. *)
Theorem plot_R_any_integers (a b : Z) :
  pair_notation a b = "R(" ++ str a ++ "," ++ str b ++ ")" /\
  option_map Z.of_int (NilZero.int_of_string (str a)) = Some a /\
  option_map Z.of_int (NilZero.int_of_string (str b)) = Some b /\
  (forall (F : Type) (float : string -> option F) (f : list string) (e : exn),
     plot_R float f a b = Raise e -> e = IndexError \/ e = ValueError) /\
  selected_R (pair_notation a b) (step_for a b) = true /\
  plot_R Py.float [step_for a b] a b = Return [1.5; 2.5]%float.
Proof.
  split; [reflexivity|]. split; [apply str_decimal|].
  split; [apply str_decimal|]. split.
  - intros F float f e. apply plot_R_raise.
  - split; [|apply plot_R_step_for].
    unfold selected_R. now rewrite select_R_step_for.
Qed.

Lemma plot_R_any_integers_witness :
  pair_notation 0 (-3) = "R(0,-3)" /\
  plot_R Py.float ["  1 R(0,-3) = 1.5 0 0 2.5"] 0 (-3)
  = Return [1.5; 2.5]%float /\
  plot_R Py.float energy_not_a_number 0 (-3) = Raise IndexError /\
  (IndexError = IndexError \/ IndexError = ValueError).
Proof.
  pose proof (plot_R_any_integers 0 (-3)) as (Htag & _ & _ & Hexn & _ & Hret).
  assert (Hraise : plot_R Py.float energy_not_a_number 0 (-3)
                   = Raise IndexError) by (vm_compute; reflexivity).
  split; [exact Htag|]. split; [exact Hret|]. split; [exact Hraise|].
  exact (Hexn _ Py.float energy_not_a_number IndexError Hraise).
Defined.

(** *** Inputs on which the statements are checked *)

Lemma plot_R_returns_witness :
  exists line0 v0 vs,
    hd_error (filter (selected_R (pair_notation 1 2)) two_steps) = Some line0 /\
    field Py.float 3 line0 = Some v0 /\
    reads_as (field Py.float 6)
      (filter (selected_R (pair_notation 1 2)) two_steps) vs /\
    plot_R Py.float two_steps 1 2 = Return (v0 :: vs) /\
    length (v0 :: vs) = (2 + 1)%nat.
Proof.
  apply (plot_R_returns _ Py.float two_steps 1 2 2).
  - vm_compute. reflexivity.
  - vm_compute. reflexivity.
  - lia.
  - intros line Hin. vm_compute in Hin.
    destruct Hin as [<- | [<- | []]];
      (split; [vm_compute; lia|]);
      split; eexists; vm_compute; reflexivity.
Defined.

(** The first line is selected and well formed, yet the filter raises on the
    second line, which is not selected. *)
Lemma plot_R_raises_beside_selected_line :
  length (filter (selected_R (pair_notation 1 2)) step_then_glued) = 1%nat /\
  (forall line,
     In line (filter (selected_R (pair_notation 1 2)) step_then_glued) ->
     (7 <= length (split line))%nat /\
     (exists v, field Py.float 3 line = Some v) /\
     (exists v, field Py.float 6 line = Some v)) /\
  plot_R Py.float step_then_glued 1 2 = Raise IndexError /\
  plot_R Py.float (with_newlines step_then_glued) 1 2 = Raise IndexError.
Proof.
  split; [vm_compute; reflexivity|].
  split; [|split; vm_compute; reflexivity].
  intros line Hin. vm_compute in Hin. destruct Hin as [<- | []].
  split; [vm_compute; lia|]. split; eexists; vm_compute; reflexivity.
Qed.

Lemma select_R_selects_witness :
  select_R (pair_notation 1 2) step_1 = Return true /\
  select_R (pair_notation 1 2) "  R(1,2) note" <> Return true.
Proof.
  split.
  - apply (proj1 (select_R_selects (pair_notation 1 2) step_1)). split.
    + exists 6%nat. split; [|lia]. split.
      * now exists "    1 ",
          "          =      2.631400     -0.002012      0.001234    2.632634".
      * intros j Hj.
        do 6 (destruct j as [|j];
              [apply occurs_at_0 in Hj; discriminate
              | apply occurs_at_S in Hj]).
        lia.
    + now exists "R(1,2)", "".
  - apply (proj2 (select_R_selects (pair_notation 1 2) "  R(1,2) note")).
    + exists 2%nat. now exists "  ", " note".
    + intros tok rest Hnth. vm_compute in Hnth. injection Hnth as <-.
      destruct rest; discriminate.
Defined.

(** The tag is on the line and the second token starts with it, yet the line
    is not selected: the tag first occurs at index 0. *)
Lemma leading_tag_not_selected :
  contains leading_tag (pair_notation 1 2) /\
  (exists tok rest,
     nth_error (split (strip leading_tag)) 1 = Some tok /\
     tok = pair_notation 1 2 ++ rest) /\
  select_R (pair_notation 1 2) leading_tag = Return false /\
  plot_R Py.float [leading_tag] 1 2 = Raise IndexError /\
  plot_R Py.float (with_newlines [leading_tag]) 1 2 = Raise IndexError.
Proof.
  split; [|split; [|repeat split]].
  - exists 0%nat. now exists "", " R(1,2) = 1.0 0.1 0.2 1.1".
  - now exists "R(1,2)", "".
Qed.

Lemma plot_R_no_selected_line_witness :
  plot_R Py.float energies 1 6 = Raise IndexError.
Proof.
  apply (plot_R_no_selected_line _ Py.float energies 1 6).
  vm_compute. reflexivity.
Defined.

Lemma plot_energy_returns_witness :
  exists vs,
    plot_energy Py.float energies = Return vs /\
    reads_as (field Py.float 3) (filter select_energy energies) vs /\
    length vs = length (filter select_energy energies) /\
    (filter select_energy energies = [] -> vs = []).
Proof.
  apply (plot_energy_returns _ Py.float energies).
  intros line Hin. vm_compute in Hin.
  destruct Hin as [<- | [<- | [<- | []]]]; eexists; vm_compute; reflexivity.
Defined.

(** A selected line cut after its third token: [plot_energy] raises. *)
Lemma short_energy_line_raises :
  length (filter select_energy energy_cut_short) = 2%nat /\
  plot_energy Py.float energy_cut_short = Raise IndexError /\
  plot_energy Py.float (with_newlines energy_cut_short) = Raise IndexError.
Proof. repeat split; vm_compute; reflexivity. Qed.

Lemma plot_energy_raises_witness :
  exists e bad,
    plot_energy Py.float energy_not_a_number = Raise e /\
    In bad energy_not_a_number /\ select_energy bad = true /\
    ((e = IndexError /\ (length (split bad) < 4)%nat) \/
     (e = ValueError /\
      exists tok, nth_error (split bad) 3 = Some tok /\ Py.float tok = None)).
Proof.
  apply (plot_energy_raises _ Py.float energy_not_a_number
           "Current energy   :   n/a").
  - now left.
  - vm_compute. reflexivity.
  - right. exists "n/a". split; vm_compute; reflexivity.
Defined.

Lemma extractors_deterministic_witness :
  fst (run_plot_R Py.float 1 2 (snd (run_plot_R Py.float 1 2 benzene)))
  = fst (run_plot_R Py.float 1 2 benzene).
Proof.
  exact (proj2 (proj1 (extractors_deterministic _ Py.float benzene 1 2))).
Defined.

Lemma select_R_raises_on_single_token_witness :
  select_R (pair_notation 1 2) glued = Raise IndexError /\
  selected_R (pair_notation 1 2) glued = false /\
  plot_R Py.float step_then_glued 1 2 = Raise IndexError.
Proof.
  pose proof (select_R_raises_on_single_token _ Py.float)
    as (Hline & Htrace & Hfirst & Hlen & _).
  destruct (Hline (pair_notation 1 2) glued 2%nat Hfirst) as [Hsel Hnot].
  - lia.
  - rewrite Hlen. lia.
  - split; [exact Hsel|]. split; [exact Hnot|].
    apply (Htrace step_then_glued 1%Z 2%Z glued);
      [right; now left | exact Hsel].
Defined.

Lemma plot_energy_selected_only_witness :
  plot_energy Py.float energies = plot_energy Py.float energies_padded.
Proof.
  apply (proj1 (plot_energy_selected_only _ Py.float energies energies_padded)).
  vm_compute. reflexivity.
Defined.

End Concrete.

(** ** Whitespace at the ends of a line *)

Section Padding.
Import Py PyFacts.

Lemma split_from_all_space (pad : string) : forall tok,
  all_chars isspace pad = true -> split_from tok pad = flush tok.
Proof.
  induction pad as [|c pad IH]; intros tok Hpad; [reflexivity|].
  simpl in Hpad. apply andb_prop in Hpad as [Hc Hpad].
  rewrite split_from_cons, Hc, (IH "" Hpad). apply app_nil_r.
Qed.

Lemma split_from_pad_right (s pad : string) : forall tok,
  all_chars isspace pad = true ->
  split_from tok (s ++ pad) = split_from tok s.
Proof.
  induction s as [|c s IH]; intros tok Hpad.
  - now apply split_from_all_space.
  - cbn [append]. rewrite !split_from_cons.
    destruct (isspace c); now rewrite IH.
Qed.

Lemma split_from_pad_left (pad s : string) :
  all_chars isspace pad = true ->
  split_from "" (pad ++ s) = split_from "" s.
Proof.
  induction pad as [|c pad IH]; intros Hpad; [reflexivity|].
  simpl in Hpad. apply andb_prop in Hpad as [Hc Hpad].
  cbn [append]. rewrite split_from_cons, Hc. now apply IH.
Qed.

Lemma split_padded (pad s pad' : string) :
  all_chars isspace pad = true -> all_chars isspace pad' = true ->
  split (pad ++ s ++ pad') = split s.
Proof.
  intros Hpad Hpad'. unfold split.
  now rewrite split_from_pad_left, split_from_pad_right.
Qed.

Lemma rstrip_all_space (pad : string) :
  all_chars isspace pad = true -> rstrip pad = "".
Proof.
  unfold rstrip. induction pad as [|c pad IH]; intros Hpad; [reflexivity|].
  simpl in Hpad. apply andb_prop in Hpad as [Hc Hpad].
  cbn [drop_trailing]. now rewrite (IH Hpad), Hc.
Qed.

Lemma rstrip_pad_right (s pad : string) :
  all_chars isspace pad = true -> rstrip (s ++ pad) = rstrip s.
Proof.
  intros Hpad. induction s as [|c s IH].
  - now apply rstrip_all_space.
  - unfold rstrip in *. cbn [append drop_trailing]. now rewrite IH.
Qed.

Lemma lstrip_pad_left (pad s : string) :
  all_chars isspace pad = true -> lstrip (pad ++ s) = lstrip s.
Proof.
  unfold lstrip. induction pad as [|c pad IH]; intros Hpad; [reflexivity|].
  simpl in Hpad. apply andb_prop in Hpad as [Hc Hpad].
  cbn [append drop_leading]. rewrite Hc. now apply IH.
Qed.

Lemma strip_pad_right (s pad : string) :
  all_chars isspace pad = true -> strip (s ++ pad) = strip s.
Proof.
  intros Hpad. induction s as [|c s IH].
  - unfold strip. cbn [append].
    assert (Hl : lstrip pad = "").
    { clear -Hpad. unfold lstrip.
      induction pad as [|c pad IH]; [reflexivity|].
      simpl in Hpad. apply andb_prop in Hpad as [Hc Hpad].
      cbn [drop_leading]. rewrite Hc. now apply IH. }
    now rewrite Hl.
  - unfold strip, lstrip in *. cbn [append drop_leading].
    destruct (isspace c); [exact IH|].
    change (String c (s ++ pad)) with (String c s ++ pad).
    now apply rstrip_pad_right.
Qed.

Lemma strip_padded (pad s pad' : string) :
  all_chars isspace pad = true -> all_chars isspace pad' = true ->
  strip (pad ++ s ++ pad') = strip s.
Proof.
  intros Hpad Hpad'.
  transitivity (strip (s ++ pad')); [|now apply strip_pad_right].
  unfold strip. now rewrite lstrip_pad_left.
Qed.

Lemma prefix_pad_right (sub : string) : forall s pad,
  no_space sub = true -> all_chars isspace pad = true ->
  prefix sub (s ++ pad) = prefix sub s.
Proof.
  induction sub as [|c sub IH]; intros s pad Hsub Hpad.
  - now destruct s, pad.
  - simpl in Hsub. apply andb_prop in Hsub as [Hc Hsub].
    apply negb_true_iff in Hc.
    destruct s as [|d s]; cbn [append prefix].
    + destruct pad as [|d pad]; [reflexivity|]. cbn [prefix].
      simpl in Hpad. apply andb_prop in Hpad as [Hd _].
      destruct (ascii_dec c d) as [->|]; [congruence | reflexivity].
    + destruct (ascii_dec c d); [now apply IH | reflexivity].
Qed.

Lemma find_from_all_space (pad sub : string) : forall i,
  no_space sub = true -> all_chars isspace pad = true ->
  find_from i pad sub = find_from i "" sub.
Proof.
  induction pad as [|c pad IH]; intros i Hsub Hpad; [reflexivity|].
  cbn [find_from].
  pose proof (prefix_pad_right sub "" (String c pad) Hsub Hpad) as Hpre.
  cbn [append] in Hpre. rewrite Hpre.
  destruct (prefix sub "") eqn:Hp; [reflexivity|].
  simpl in Hpad. apply andb_prop in Hpad as [_ Hpad].
  rewrite (IH (i + 1)%Z Hsub Hpad). cbn [find_from]. now rewrite Hp.
Qed.

Lemma find_pad_right (s pad sub : string) : forall i,
  no_space sub = true -> all_chars isspace pad = true ->
  find_from i (s ++ pad) sub = find_from i s sub.
Proof.
  induction s as [|c s IH]; intros i Hsub Hpad.
  - now apply find_from_all_space.
  - cbn [append find_from].
    change (String c (s ++ pad)) with (String c s ++ pad).
    rewrite (prefix_pad_right sub (String c s) pad Hsub Hpad).
    destruct (prefix sub (String c s)); [reflexivity | now apply IH].
Qed.

End Padding.

(** ** More about the two extractors *)

Section ScannerFacts.
Import Py PyFacts.

Variable F : Type.
Variable float : string -> option F.

Lemma forallb_false_witness {A : Type} (p : A -> bool) (l : list A) :
  forallb p l = false -> exists x, In x l /\ p x = false.
Proof.
  induction l as [|x l IH]; [discriminate|].
  cbn [forallb]. destruct (p x) eqn:Hx; cbn [andb].
  - intros H. destruct (IH H) as (y & Hy & Hpy). exists y. split; [now right | exact Hpy].
  - intros _. exists x. split; [now left | exact Hx].
Qed.

Lemma getitem_field (i : nat) (line tok : string) (v : F) :
  getitem (split line) i = Return tok -> to_float float tok = Return v ->
  field float i line = Some v.
Proof.
  unfold getitem, to_float, field.
  destruct (nth_error (split line) i); [|discriminate].
  intros [= ->]. destruct (float tok); [now intros [= ->] | discriminate].
Qed.

(** What the loop of [plot_R] has appended when it ends. *)
Lemma append_distances_inv (lines : list string) :
  forall (bond_distances xs : list F),
    append_distances float (map split lines) bond_distances = Return xs ->
    exists vs, xs = (bond_distances ++ vs)%list /\
               reads_as (field float 6) lines vs.
Proof.
  unfold reads_as.
  induction lines as [|line lines IH]; intros acc xs; cbn [map append_distances].
  - intros [= <-]. exists []. now rewrite app_nil_r.
  - destruct (getitem (split line) 6) as [tok|] eqn:Hget;
      cbn [bind]; [|discriminate].
    destruct (to_float float tok) as [v|] eqn:Hv; cbn [bind]; [|discriminate].
    intros H. destruct (IH _ _ H) as (vs & -> & Hvs).
    exists (v :: vs). rewrite <- app_assoc. split; [reflexivity|].
    cbn [map]. now rewrite (getitem_field _ _ _ _ Hget Hv), Hvs.
Qed.

(** Why the loop of [plot_R] raises. *)
Lemma append_distances_cause (lines : list string) :
  forall (bond_distances : list F) (e : exn),
    append_distances float (map split lines) bond_distances = Raise e ->
    exists line, In line lines /\
      ((e = IndexError /\ (length (split line) < 7)%nat) \/
       (e = ValueError /\
        exists tok, nth_error (split line) 6 = Some tok /\ float tok = None)).
Proof.
  induction lines as [|line lines IH]; intros acc e; cbn [map append_distances].
  - discriminate.
  - unfold getitem, to_float.
    destruct (nth_error (split line) 6) as [tok|] eqn:Hnth; cbn [bind].
    + destruct (float tok) as [v|] eqn:Hv; cbn [bind].
      * intros H. destruct (IH _ _ H) as (bad & Hin & Hcause).
        exists bad. split; [now right | exact Hcause].
      * intros [= <-]. exists line. split; [now left|]. right.
        split; [reflexivity|]. now exists tok.
    + intros [= <-]. exists line. split; [now left|]. left.
      split; [reflexivity|]. apply nth_error_None in Hnth. lia.
Qed.

Lemma plot_R_reads (f : list string) (a b : Z) (line0 : string)
    (sel : list string) (v0 : F) (vs : list F) :
  forallb (filter_answers (pair_notation a b)) f = true ->
  filter (selected_R (pair_notation a b)) f = line0 :: sel ->
  field float 3 line0 = Some v0 ->
  reads_as (field float 6) (line0 :: sel) vs ->
  plot_R float f a b = Return (v0 :: vs).
Proof.
  intros Hall Hsel Hv0 Hvs. unfold plot_R.
  destruct (rows_with_R_pairs_spec (pair_notation a b) f)
    as [[_ ->] | [Hno _]]; [|congruence].
  rewrite Hsel. cbn [bind].
  change (getitem (map split (line0 :: sel)) 0) with (Return (split line0)).
  cbn [bind].
  destruct (field_getitem _ float _ _ _ Hv0) as (tok & Hget & Htok).
  rewrite Hget. cbn [bind]. rewrite Htok. cbn [bind].
  now rewrite (append_distances_reads _ float _ _ vs Hvs).
Qed.

Lemma plot_R_return_inv (f : list string) (a b : Z) (xs : list F) :
  plot_R float f a b = Return xs ->
  forallb (filter_answers (pair_notation a b)) f = true /\
  exists line0 sel v0 vs,
    filter (selected_R (pair_notation a b)) f = line0 :: sel /\
    field float 3 line0 = Some v0 /\
    reads_as (field float 6) (line0 :: sel) vs /\
    xs = v0 :: vs.
Proof.
  unfold plot_R. intros H.
  destruct (rows_with_R_pairs_spec (pair_notation a b) f)
    as [[Hall Hrows] | [_ Hrows]]; rewrite Hrows in H; cbn [bind] in H;
    [|discriminate].
  split; [exact Hall|].
  destruct (filter (selected_R (pair_notation a b)) f) as [|line0 sel];
    [discriminate|].
  change (getitem (map split (line0 :: sel)) 0)
    with (Return (split line0)) in H.
  cbn [bind] in H.
  destruct (getitem (split line0) 3) as [tok|] eqn:Hget;
    cbn [bind] in H; [|discriminate].
  destruct (to_float float tok) as [v0|] eqn:Hv0;
    cbn [bind] in H; [|discriminate].
  apply append_distances_inv in H as (vs & -> & Hvs).
  exists line0, sel, v0, vs. repeat split; auto.
  exact (getitem_field _ _ _ _ Hget Hv0).
Qed.

(** X1.  [plot_R] returns a sequence exactly when its filter raises on no
    line, some line is selected, the token 3 of the first selected line parses
    and the token 6 of every selected line parses; the sequence is then the
    first of these numbers followed by the others in order, so it never has
    fewer than two elements. *)
Theorem plot_R_returns_iff (f : list string) (a b : Z) (xs : list F) :
  plot_R float f a b = Return xs <->
  forallb (filter_answers (pair_notation a b)) f = true /\
  exists line0 sel v0 vs,
    filter (selected_R (pair_notation a b)) f = line0 :: sel /\
    field float 3 line0 = Some v0 /\
    reads_as (field float 6) (line0 :: sel) vs /\
    xs = v0 :: vs /\
    length xs = (2 + length sel)%nat.
Proof.
  split.
  - intros H. apply plot_R_return_inv in H
      as (Hall & line0 & sel & v0 & vs & Hsel & Hv0 & Hvs & ->).
    split; [exact Hall|]. exists line0, sel, v0, vs. repeat split; auto.
    cbn [length]. now rewrite (reads_as_length _ _ _ Hvs).
  - intros (Hall & line0 & sel & v0 & vs & Hsel & Hv0 & Hvs & -> & _).
    now apply (plot_R_reads f a b line0 sel).
Qed.

(** X2.  When [plot_R] raises, the exception tells why.  [IndexError]: the
    filter raised on a line, or no line is selected, or a selected line has
    fewer than 7 tokens.  [ValueError]: the filter raised on no line and a
    selected line has a token 3 or 6 that does not parse. *)
Theorem plot_R_raise_cause (f : list string) (a b : Z) (e : exn) :
  plot_R float f a b = Raise e ->
  (e = IndexError /\
   ((exists line, In line f /\
                  filter_answers (pair_notation a b) line = false) \/
    filter (selected_R (pair_notation a b)) f = [] \/
    (exists line, In line (filter (selected_R (pair_notation a b)) f) /\
                  (length (split line) < 7)%nat)))
  \/
  (e = ValueError /\
   forallb (filter_answers (pair_notation a b)) f = true /\
   exists line i tok,
     In line (filter (selected_R (pair_notation a b)) f) /\
     (i = 3%nat \/ i = 6%nat) /\
     nth_error (split line) i = Some tok /\ float tok = None).
Proof.
  unfold plot_R.
  destruct (rows_with_R_pairs_spec (pair_notation a b) f)
    as [[Hall ->] | [Hno ->]]; cbn [bind].
  - destruct (filter (selected_R (pair_notation a b)) f) as [|line0 sel].
    + intros [= <-]. left. auto.
    + change (getitem (map split (line0 :: sel)) 0) with (Return (split line0)).
      cbn [bind]. unfold getitem at 1, to_float at 1.
      destruct (nth_error (split line0) 3) as [tok|] eqn:Hnth; cbn [bind].
      * destruct (float tok) as [v0|] eqn:Hv0; cbn [bind].
        -- intros H. apply append_distances_cause in H
             as (line & Hin & [[-> Hshort] | [-> (tok6 & Hnth6 & Hnone)]]).
           ++ left. split; [reflexivity|]. right. right. now exists line.
           ++ right. split; [reflexivity|]. split; [exact Hall|].
              exists line, 6%nat, tok6. auto.
        -- intros [= <-]. right. split; [reflexivity|]. split; [exact Hall|].
           exists line0, 3%nat, tok. repeat split; auto. now left.
      * intros [= <-]. left. split; [reflexivity|]. right. right.
        exists line0. split; [now left|].
        apply nth_error_None in Hnth. lia.
  - intros [= <-]. left. split; [reflexivity|]. left.
    now apply forallb_false_witness.
Qed.

(** X3.  Every row that the comprehension of [plot_R] keeps has at least two
    tokens, and its token 1 starts with the tag: trimming the line before it
    is split changes nothing. *)
Theorem rows_with_R_pairs_second_token (tag : string) (f : list string)
    (rows : list (list string)) :
  rows_with_R_pairs tag f = Return rows ->
  rows = map split (filter (selected_R tag) f) /\
  forall row, In row rows ->
    (2 <= length row)%nat /\
    exists tok rest, nth_error row 1 = Some tok /\ tok = tag ++ rest.
Proof.
  intros Hrows.
  destruct (rows_with_R_pairs_spec tag f) as [[_ H] | [_ H]];
    rewrite H in Hrows; [|discriminate].
  injection Hrows as <-. split; [reflexivity|].
  intros row Hin. apply in_map_iff in Hin as (line & <- & Hline).
  apply filter_In in Hline as [_ Hsel]. unfold selected_R in Hsel.
  destruct (select_R tag line) as [[|]|] eqn:Hs; try discriminate.
  apply select_R_true in Hs as (_ & tok & Hnth & Hstart).
  rewrite split_strip in Hnth. split.
  - assert (nth_error (split line) 1 <> None) as Hsome by congruence.
    apply nth_error_Some in Hsome. lia.
  - apply prefix_iff in Hstart as [rest ->]. now exists (tag ++ rest), rest.
Qed.

(** *** One line, one pair *)

Lemma separator_unique (c : ascii) (x : string) : forall y r r',
  all_chars (fun d => negb (Ascii.eqb d c)) x = true ->
  all_chars (fun d => negb (Ascii.eqb d c)) y = true ->
  x ++ String c r = y ++ String c r' -> x = y /\ r = r'.
Proof.
  induction x as [|d x IH]; intros [|d' y] r r' Hx Hy H; cbn [append] in H.
  - injection H as ->. auto.
  - injection H as -> _. simpl in Hy. now rewrite Ascii.eqb_refl in Hy.
  - injection H as -> _. simpl in Hx. now rewrite Ascii.eqb_refl in Hx.
  - injection H as -> H. simpl in Hx, Hy.
    apply andb_prop in Hx as [_ Hx]. apply andb_prop in Hy as [_ Hy].
    destruct (IH y r r' Hx Hy H) as [-> ->]. auto.
Qed.

Lemma uint_without (c : ascii) (d : Decimal.uint) :
  c = ","%char \/ c = ")"%char ->
  all_chars (fun d => negb (Ascii.eqb d c)) (NilEmpty.string_of_uint d) = true.
Proof. intros [-> | ->]; induction d; simpl; auto. Qed.

(** Neither a comma nor a closing parenthesis is in [str n]. *)
Lemma str_without (c : ascii) (n : Z) :
  c = ","%char \/ c = ")"%char ->
  all_chars (fun d => negb (Ascii.eqb d c)) (str n) = true.
Proof.
  intros Hc. unfold str.
  destruct (Z.to_int n) as [d|d]; cbn [NilZero.string_of_int];
    destruct d; cbn [NilZero.string_of_uint];
    try (destruct Hc as [-> | ->]; reflexivity);
    try (change (String "-" ?s) with ("-" ++ s));
    destruct Hc as [-> | ->]; simpl; auto using uint_without.
Qed.

Lemma str_injective (n m : Z) : str n = str m -> n = m.
Proof.
  intros H. pose proof (str_decimal n) as Hn. rewrite H, str_decimal in Hn.
  now injection Hn.
Qed.

(** A text starts with the tag of one pair at most. *)
Lemma pair_notation_prefix (a b a' b' : Z) (r r' : string) :
  pair_notation a b ++ r = pair_notation a' b' ++ r' -> a = a' /\ b = b'.
Proof.
  unfold pair_notation. cbn [append]. intros [= H].
  rewrite !append_assoc in H. cbn [append] in H.
  apply separator_unique in H as [Ha H]; try (apply str_without; now left).
  rewrite !append_assoc in H. cbn [append] in H.
  apply separator_unique in H as [Hb _]; try (apply str_without; now right).
  split; now apply str_injective.
Qed.

(** X4.  A line is selected for one pair at most: a line selected for the
    tag of [a] and [b] and for the tag of [a'] and [b'] has [a = a'] and
    [b = b'].  So [plot_R(1, 2)] never reads a line of [R(1,20)] or
    [R(11,2)]. *)
Theorem selected_R_one_pair (line : string) (a b a' b' : Z) :
  selected_R (pair_notation a b) line = true ->
  selected_R (pair_notation a' b') line = true ->
  a = a' /\ b = b'.
Proof.
  unfold selected_R. intros H H'.
  destruct (select_R (pair_notation a b) line) as [[|]|] eqn:Hs;
    try discriminate.
  destruct (select_R (pair_notation a' b') line) as [[|]|] eqn:Hs';
    try discriminate.
  apply select_R_true in Hs as (_ & tok & Hnth & Hstart).
  apply select_R_true in Hs' as (_ & tok' & Hnth' & Hstart').
  rewrite Hnth in Hnth'. injection Hnth' as <-.
  apply prefix_iff in Hstart as [r Hr]. apply prefix_iff in Hstart' as [r' Hr'].
  apply (pair_notation_prefix a b a' b' r r'). congruence.
Qed.

(** *** Where the second token is *)

Lemma length_append (s t : string) :
  String.length (s ++ t) = (String.length s + String.length t)%nat.
Proof. induction s as [|c s IH]; simpl; congruence. Qed.

(** A token under construction ends at the end of the text or before the
    next whitespace. *)
Lemma split_from_token (s : string) : forall tok,
  tok <> "" ->
  exists w s',
    split_from tok s = (tok ++ w) :: split_from "" s' /\
    s = w ++ s' /\ no_space w = true /\
    (s' = "" \/ exists c s'', s' = String c s'' /\ isspace c = true).
Proof.
  induction s as [|c s IH]; intros tok Htok.
  - exists "", "". destruct tok; [contradiction|].
    rewrite append_nil_r. repeat split; auto.
  - rewrite split_from_cons. destruct (isspace c) eqn:Hc.
    + exists "", (String c s). rewrite append_nil_r, split_from_cons, Hc.
      destruct tok; [contradiction|]. repeat split; auto.
      right. now exists c, s.
    + destruct (IH (tok ++ String c "")) as (w & s' & Hsplit & -> & Hw & Hs').
      { destruct tok; discriminate. }
      exists (String c w), s'. rewrite Hsplit, append_assoc.
      repeat split; auto. simpl. now rewrite Hc.
Qed.

(** The first token stands after leading whitespace. *)
Lemma split_first_token (s : string) : forall t rest,
  split_from "" s = t :: rest ->
  exists pad s',
    s = pad ++ t ++ s' /\ all_chars isspace pad = true /\
    t <> "" /\ no_space t = true /\ rest = split_from "" s' /\
    (s' = "" \/ exists c s'', s' = String c s'' /\ isspace c = true).
Proof.
  induction s as [|c s IH]; intros t rest H; [discriminate|].
  rewrite split_from_cons in H. destruct (isspace c) eqn:Hc.
  - cbn [flush app] in H.
    destruct (IH t rest H) as (pad & s' & -> & Hpad & Ht & Hw & Hrest & Hs').
    exists (String c pad), s'. repeat split; auto. simpl. now rewrite Hc.
  - destruct (split_from_token s ("" ++ String c ""))
      as (w & s' & Hsplit & -> & Hw & Hs'); [discriminate|].
    rewrite Hsplit in H. injection H as <- <-.
    exists "", s'. repeat split; auto; try discriminate.
    simpl. now rewrite Hc.
Qed.

(** The second token of a line starts at index 2 or later. *)
Lemma second_token_position (s t : string) :
  nth_error (split s) 1 = Some t ->
  exists pre suf, s = pre ++ t ++ suf /\ (2 <= String.length pre)%nat.
Proof.
  unfold split. intros Hnth.
  destruct (split_from "" s) as [|t0 [|t1 rest]] eqn:Hsplit; try discriminate.
  injection Hnth as ->.
  apply split_first_token in Hsplit
    as (pad & s' & -> & _ & Ht0 & _ & Hrest & Hs').
  symmetry in Hrest.
  destruct Hs' as [-> | (c & s'' & -> & Hc)]; [discriminate|].
  apply split_first_token in Hrest
    as (pad' & s3 & Hs' & _ & Ht & Hw & _ & _).
  exists (pad ++ t0 ++ pad'), s3. split.
  - rewrite Hs', !append_assoc. reflexivity.
  - rewrite !length_append.
    assert (1 <= String.length t0)%nat by (destruct t0; [contradiction | simpl; lia]).
    assert (1 <= String.length pad')%nat.
    { destruct pad' as [|d pad']; [|simpl; lia]. exfalso.
      destruct t as [|d t]; [contradiction|]. cbn [append] in Hs'.
      injection Hs' as -> _. simpl in Hw. now rewrite Hc in Hw. }
    lia.
Qed.

(** X5.  The guard [find > 1] of the filter of [plot_R] only rules out lines
    in which the tag also occurs at index 0 or 1: a line is selected exactly
    when its second token starts with the tag and the tag occurs neither at
    index 0 nor at index 1 of the line. *)
Theorem select_R_guard (tag line : string) :
  select_R tag line = Return true <->
  (exists tok rest, nth_error (split line) 1 = Some tok /\ tok = tag ++ rest) /\
  ~ occurs_at 0 tag line /\ ~ occurs_at 1 tag line.
Proof.
  rewrite select_R_true, find_gt_1, split_strip. unfold startswith. split.
  - intros ((n & [Hocc Hmin] & Hn) & tok & Hnth & Hp).
    apply prefix_iff in Hp as [rest ->]. split; [eauto|].
    split; intros H; apply Hmin in H; lia.
  - intros ((tok & rest & Hnth & ->) & H0 & H1). split.
    + apply second_token_position in Hnth as (pre & suf & Hline & Hpre).
      assert (Hocc : occurs_at (String.length pre) tag line).
      { exists pre, (rest ++ suf). now rewrite Hline, append_assoc. }
      destruct (find_from_spec line tag 0) as [[_ Hno] | (n & _ & Hn)];
        [now apply Hno in Hocc|].
      exists n. split; [exact Hn|]. destruct Hn as [Hn _].
      destruct n as [|[|n]]; [contradiction | contradiction | lia].
    + exists (tag ++ rest). split; [exact Hnth | apply prefix_append].
Qed.

(** *** Two traces, one after the other *)

Lemma forallb_filter_answers_app (tag : string) (f g : list string) :
  forallb (filter_answers tag) (f ++ g) = true <->
  forallb (filter_answers tag) f = true /\
  forallb (filter_answers tag) g = true.
Proof. rewrite forallb_app. apply andb_true_iff. Qed.

(** X6.  When [plot_R] returns on a trace [f] and on a trace [g], it returns
    on [f] followed by [g] the result for [f] followed by the result for [g]
    without its first element (the token 3 of the first selected line of
    [g]); and a trace [g] without a selected line, on which the filter does
    not raise, changes nothing. *)
Theorem plot_R_app (f g : list string) (a b : Z) (xs : list F) :
  plot_R float f a b = Return xs ->
  (forall w0 ws, plot_R float g a b = Return (w0 :: ws) ->
     plot_R float (f ++ g) a b = Return (xs ++ ws)%list) /\
  (forallb (filter_answers (pair_notation a b)) g = true ->
   filter (selected_R (pair_notation a b)) g = [] ->
   plot_R float (f ++ g) a b = Return xs).
Proof.
  intros Hf. apply plot_R_return_inv in Hf
    as (Hall & line0 & sel & v0 & vs & Hsel & Hv0 & Hvs & ->).
  split.
  - intros w0 ws Hg. apply plot_R_return_inv in Hg
      as (Hall' & line0' & sel' & w0' & ws' & Hsel' & _ & Hws & [= -> ->]).
    apply (plot_R_reads (f ++ g) a b line0 (sel ++ line0' :: sel')).
    + apply forallb_filter_answers_app. auto.
    + now rewrite filter_app, Hsel, Hsel'.
    + exact Hv0.
    + unfold reads_as in *. change (line0 :: sel ++ line0' :: sel')%list
        with ((line0 :: sel) ++ line0' :: sel')%list.
      now rewrite !map_app, Hvs, Hws.
  - intros Hall' Hnone.
    apply (plot_R_reads (f ++ g) a b line0 sel).
    + apply forallb_filter_answers_app. auto.
    + now rewrite filter_app, Hsel, Hnone, app_nil_r.
    + exact Hv0.
    + exact Hvs.
Qed.

(** X7.  [plot_energy] on a trace [f] followed by a trace [g] is
    [plot_energy] on [f], then on [g], with the two results joined; an
    exception on [f] comes first. *)
Theorem plot_energy_app (f g : list string) :
  plot_energy float (f ++ g) =
  (xs <- plot_energy float f ;;
   ys <- plot_energy float g ;;
   Return (xs ++ ys)%list).
Proof.
  induction f as [|line f IH]; cbn [app plot_energy bind].
  - now destruct (plot_energy float g).
  - destruct (select_energy line); [|exact IH].
    destruct (getitem (split line) 3) as [tok|]; cbn [bind]; [|reflexivity].
    destruct (to_float float tok) as [v|]; cbn [bind]; [|reflexivity].
    rewrite IH. destruct (plot_energy float f); cbn [bind]; [|reflexivity].
    now destruct (plot_energy float g).
Qed.

Lemma plot_energy_return_inv (f : list string) : forall vs,
  plot_energy float f = Return vs ->
  reads_as (field float 3) (filter select_energy f) vs.
Proof.
  unfold reads_as.
  induction f as [|line f IH]; intros vs; cbn [plot_energy filter].
  - now intros [= <-].
  - destruct (select_energy line); [|apply IH].
    destruct (getitem (split line) 3) as [tok|] eqn:Hget;
      cbn [bind]; [|discriminate].
    destruct (to_float float tok) as [v|] eqn:Hv; cbn [bind]; [|discriminate].
    destruct (plot_energy float f) as [ws|]; cbn [bind]; [|discriminate].
    intros [= <-]. cbn [map].
    now rewrite (getitem_field _ _ _ _ Hget Hv), (IH ws eq_refl).
Qed.

(** X8.  [plot_energy] returns a sequence exactly when every selected line
    has a token 3 that parses, and the sequence is then these numbers in
    order. *)
Theorem plot_energy_returns_iff (f : list string) (vs : list F) :
  plot_energy float f = Return vs <->
  reads_as (field float 3) (filter select_energy f) vs.
Proof.
  split; [apply plot_energy_return_inv | apply plot_energy_reads].
Qed.

Lemma plot_energy_after_good (pre rest : list string) (e : exn) :
  (forall l, In l (filter select_energy pre) ->
     exists v, field float 3 l = Some v) ->
  plot_energy float rest = Raise e ->
  plot_energy float (pre ++ rest) = Raise e.
Proof.
  intros Hpre Hrest. induction pre as [|l pre IH]; [exact Hrest|].
  cbn [app plot_energy]. cbn [filter] in Hpre.
  destruct (select_energy l) eqn:Hl.
  - destruct (Hpre l (or_introl eq_refl)) as [v Hv].
    apply field_getitem in Hv as (tok & Hget & Htok).
    rewrite Hget. cbn [bind]. rewrite Htok. cbn [bind].
    rewrite IH; [reflexivity|]. intros l' Hl'. apply Hpre. now right.
  - apply IH. exact Hpre.
Qed.

(** X9.  The first selected line that cannot be read decides the exception
    of [plot_energy], whatever follows it: [IndexError] when it has fewer than
    4 tokens, [ValueError] when its token 3 does not parse. *)
Theorem plot_energy_first_bad_line (pre post : list string) (line : string) :
  (forall l, In l (filter select_energy pre) ->
     exists v, field float 3 l = Some v) ->
  select_energy line = true ->
  ((length (split line) < 4)%nat ->
   plot_energy float (pre ++ line :: post) = Raise IndexError) /\
  (forall tok, nth_error (split line) 3 = Some tok -> float tok = None ->
   plot_energy float (pre ++ line :: post) = Raise ValueError).
Proof.
  intros Hpre Hsel. split.
  - intros Hshort. apply plot_energy_after_good; [exact Hpre|].
    cbn [plot_energy]. rewrite Hsel. unfold getitem.
    replace (nth_error (split line) 3) with (@None string); [reflexivity|].
    symmetry. apply nth_error_None. lia.
  - intros tok Hnth Hnone. apply plot_energy_after_good; [exact Hpre|].
    cbn [plot_energy]. rewrite Hsel. unfold getitem, to_float.
    rewrite Hnth. cbn [bind]. now rewrite Hnone.
Qed.

(** *** Whitespace at the end of the lines *)

Lemma select_R_pad_right (tag line pad : string) :
  no_space tag = true -> all_chars isspace pad = true ->
  select_R tag (line ++ pad) = select_R tag line.
Proof.
  intros Htag Hpad. unfold select_R, find.
  rewrite (find_pad_right line pad tag 0 Htag Hpad).
  now rewrite (strip_pad_right line pad Hpad).
Qed.

Lemma padded_right_newlines (f : list string) :
  padded_right f (Traces.with_newlines f).
Proof.
  unfold padded_right, Traces.with_newlines.
  induction f as [|line f IH]; constructor; [|exact IH].
  now exists (String (ascii_of_nat 10) "").
Qed.

(** X10.  [plot_R] does not see whitespace at the end of the lines: two
    traces that differ by it have the same outcome.  So it makes no
    difference whether the lines carry their newline. *)
Theorem plot_R_padded_right (f g : list string) (a b : Z) :
  (padded_right f g -> plot_R float g a b = plot_R float f a b) /\
  plot_R float (Traces.with_newlines f) a b = plot_R float f a b.
Proof.
  assert (Hrows : forall f g, padded_right f g ->
            rows_with_R_pairs (pair_notation a b) g
            = rows_with_R_pairs (pair_notation a b) f).
  { intros f0 g0 H. induction H as [|line line' f' g' (pad & Hpad & ->) _ IH];
      [reflexivity|].
    cbn [rows_with_R_pairs].
    rewrite (select_R_pad_right _ _ _ (no_space_pair_notation a b) Hpad), IH.
    unfold split. now rewrite (split_from_pad_right line pad "" Hpad). }
  assert (Hplot : forall f g, padded_right f g ->
            plot_R float g a b = plot_R float f a b).
  { intros f0 g0 H. unfold plot_R. now rewrite (Hrows f0 g0 H). }
  split; [apply Hplot | apply Hplot, padded_right_newlines].
Qed.

Lemma padded_newlines (f : list string) :
  padded f (Traces.with_newlines f).
Proof.
  unfold padded, Traces.with_newlines.
  induction f as [|line f IH]; constructor; [|exact IH].
  now exists "", (String (ascii_of_nat 10) "").
Qed.

(** X11.  [plot_energy] does not see whitespace at either end of the lines:
    two traces that differ by indentation or by whitespace at the end of
    lines have the same outcome, and so have a trace and the same trace with
    its newlines. *)
Theorem plot_energy_padded (f g : list string) :
  (padded f g -> plot_energy float g = plot_energy float f) /\
  plot_energy float (Traces.with_newlines f) = plot_energy float f.
Proof.
  assert (Hplot : forall f g, padded f g ->
            plot_energy float g = plot_energy float f).
  { intros f0 g0 H.
    induction H as [|line line' f' g' (pad & pad' & Hpad & Hpad' & ->) _ IH];
      [reflexivity|].
    cbn [plot_energy]. unfold select_energy.
    now rewrite (strip_padded pad line pad' Hpad Hpad'),
                (split_padded pad line pad' Hpad Hpad'), IH. }
  split; [apply Hplot | apply Hplot, padded_newlines].
Qed.

End ScannerFacts.

(** ** The cells that plot a series *)

Section CellFacts.
Import Py PyFacts.

Variable F : Type.
Variable float : string -> option F.
Variables gt lt : F -> F -> bool.
Variables add sub mul : F -> F -> F.
Variable lit_0_15 : F.


Lemma plot_series_empty :
  plot_series F gt lt add sub mul lit_0_15 [] = Raise ValueError.
Proof. reflexivity. Qed.




End CellFacts.

(** ** The torsion scan *)

Section TorsionFacts.
Import Py PyFacts Torsion.

Lemma str_nonempty (n : Z) : flush (str n) = [str n].
Proof.
  pose proof (str_decimal n) as H.
  destruct (str n); [discriminate | reflexivity].
Qed.

Lemma split_from_numeral (n : Z) : split_from "" (str n) = [str n].
Proof.
  rewrite <- (append_nil_r (str n)) at 1.
  rewrite (split_from_word (str n) "" "" (no_space_str n)).
  apply str_nonempty.
Qed.

(** X14.  For every angle [P] the text handed to the option
    [fixed_dihedral] splits at whitespace into ten tokens, the four atoms of
    [dihedral1] and [P], then the four atoms of [dihedral2] and [P]: the two
    blanks in a row before [P] add no token.  Two angles never give the same
    text. *)
Theorem frozen_dihedral_total_tokens (P : Z) :
  split (frozen_dihedral_total P)
  = ["2"; "1"; "7"; "8"; str P; "6"; "1"; "7"; "9"; str P] /\
  (forall Q, frozen_dihedral_total P = frozen_dihedral_total Q -> P = Q).
Proof.
  assert (Htokens : forall n, split (frozen_dihedral_total n)
            = ["2"; "1"; "7"; "8"; str n; "6"; "1"; "7"; "9"; str n]).
  { intros n. unfold split, frozen_dihedral_total, dihedral1, dihedral2.
    rewrite !append_assoc. cbn [append].
    change (split_from "" ?s) with (split_from "" s).
    set (num := str n).
    change (split_from ""
              (String "2" (String " " (String "1" (String " " (String "7"
                (String " " (String "8" (String " " (String " "
                  (num ++ String " " (String "6" (String " " (String "1"
                    (String " " (String "7" (String " " (String "9"
                      (String " " (String " " num))))))))))))))))))))
      with ("2" :: "1" :: "7" :: "8"
              :: split_from ""
                   (num ++ String " " (String "6" (String " " (String "1"
                      (String " " (String "7" (String " " (String "9"
                         (String " " (String " " num))))))))))).
    subst num. rewrite (split_from_word (str n) "" _ (no_space_str n)).
    change (split_from ("" ++ str n) ?s)
      with (flush (str n) ++ "6" :: "1" :: "7" :: "9"
              :: split_from "" (str n))%list.
    now rewrite str_nonempty, split_from_numeral. }
  split; [apply Htokens|].
  intros Q H. apply (f_equal split) in H. rewrite !Htokens in H.
  injection H as H _. now apply str_injective.
Qed.

Variable Psi4 : Type.
Variable E : Type.
Variable set_module_options : string -> string -> string -> Psi4 -> Psi4.
Variable optimize : string -> Psi4 -> option E * Psi4.

(** The loop adds an angle and an energy together, angle after angle. *)
Lemma scan_loop_lists (angles : list Z) :
  forall st : scan Psi4 E,
    let r := scan_loop Psi4 E set_module_options optimize angles st in
    exists done rest,
      angles = (done ++ rest)%list /\
      phi (snd r) = (phi st ++ done)%list /\
      length (energy_values (snd r))
      = (length (energy_values st) + length done)%nat /\
      (fst r = true -> rest = []).
Proof.
  induction angles as [|P angles IH]; intros st; cbn zeta.
  - exists [], []. cbn. rewrite app_nil_r. repeat split; auto; lia.
  - cbn [scan_loop]. unfold scan_pass.
    destruct (optimize "scf/3-21G" _) as [[energy|] lib'].
    + match goal with |- context [scan_loop _ _ _ _ angles ?st1] =>
        destruct (IH st1) as (done & rest & -> & Hphi & Hlen & Hok) end.
      exists (P :: done), rest. cbn [phi energy_values] in Hphi, Hlen.
      rewrite Hphi, Hlen, <- app_assoc, length_app. cbn [length app].
      split; [reflexivity|]. split; [reflexivity|]. split; [lia | exact Hok].
    + exists [], (P :: angles). cbn [fst snd phi energy_values length app].
      rewrite app_nil_r.
      split; [reflexivity|]. split; [reflexivity|].
      split; [lia | discriminate].
Qed.

(** X15.  After the scan cell, [phi] and [energy_values] have the same
    length, whether or not [psi4.optimize] raised on the way, and [phi] is a
    beginning of 0, 10, ..., 180.  When no optimisation raises, [phi] is the
    nineteen angles 0, 10, ..., 180 and the cell ends with the line
    ["All optimizations complete!"]. *)
Theorem torsion_scan_lists (lib : Psi4) :
  length (energy_values
            (snd (torsion_scan Psi4 E set_module_options optimize lib)))
  = length (phi (snd (torsion_scan Psi4 E set_module_options optimize lib)))
  /\
  (exists rest,
     range 0 181 10
     = (phi (snd (torsion_scan Psi4 E set_module_options optimize lib))
        ++ rest)%list) /\
  (fst (torsion_scan Psi4 E set_module_options optimize lib) = true ->
   phi (snd (torsion_scan Psi4 E set_module_options optimize lib))
   = [0; 10; 20; 30; 40; 50; 60; 70; 80; 90; 100; 110; 120; 130;
      140; 150; 160; 170; 180]%Z /\
   length (energy_values
             (snd (torsion_scan Psi4 E set_module_options optimize lib)))
   = 19%nat /\
   last (printed (snd (torsion_scan Psi4 E set_module_options optimize lib)))
        ""
   = "All optimizations complete!" ++ newline).
Proof.
  unfold torsion_scan.
  match goal with |- context [scan_loop _ _ _ _ _ ?st0] =>
    destruct (scan_loop_lists (range 0 181 10) st0)
      as (done & rest & Hrange & Hphi & Hlen & Hok);
    destruct (scan_loop Psi4 E set_module_options optimize (range 0 181 10) st0)
      as [[|] st'] end;
    cbn [fst snd phi energy_values printed app length] in *.
  - rewrite (Hok eq_refl), app_nil_r in Hrange. subst done.
    rewrite Hphi, Hlen. repeat split.
    + exists []. now rewrite app_nil_r.
    + now rewrite last_last.
  - rewrite Hphi, Hlen. split; [reflexivity|]. split; [|discriminate].
    now exists rest.
Qed.

End TorsionFacts.

(** ** Inputs on which the further statements are checked *)

Section MoreConcrete.
Import Py PyFacts Traces Torsion.

Lemma plot_R_raise_cause_witness :
  (IndexError = IndexError /\
   ((exists line, In line step_then_glued /\
                  filter_answers (pair_notation 1 2) line = false) \/
    filter (selected_R (pair_notation 1 2)) step_then_glued = [] \/
    (exists line,
       In line (filter (selected_R (pair_notation 1 2)) step_then_glued) /\
       (length (split line) < 7)%nat)))
  \/
  (IndexError = ValueError /\
   forallb (filter_answers (pair_notation 1 2)) step_then_glued = true /\
   exists line i tok,
     In line (filter (selected_R (pair_notation 1 2)) step_then_glued) /\
     (i = 3%nat \/ i = 6%nat) /\
     nth_error (split line) i = Some tok /\ Py.float tok = None).
Proof.
  apply (plot_R_raise_cause _ Py.float step_then_glued 1 2 IndexError).
  vm_compute. reflexivity.
Defined.

Lemma rows_with_R_pairs_second_token_witness :
  (2 <= length (split step_2))%nat /\
  exists tok rest,
    nth_error (split step_2) 1 = Some tok /\ tok = pair_notation 1 2 ++ rest.
Proof.
  apply (proj2 (rows_with_R_pairs_second_token (pair_notation 1 2) two_steps
                  (map split [step_1; step_2])
                  ltac:(vm_compute; reflexivity))).
  right. now left.
Defined.

Lemma selected_R_one_pair_witness : (1 = 1 /\ 2 = 2)%Z.
Proof.
  apply (selected_R_one_pair step_1 1 2 1 2); vm_compute; reflexivity.
Defined.

Lemma plot_R_app_witness :
  plot_R Py.float ([step_1] ++ [step_2]) 1 2
  = Return ([2.6314; 2.632634] ++ [2.632835])%list%float.
Proof.
  apply (proj1 (plot_R_app _ Py.float [step_1] [step_2] 1 2
                  [2.6314; 2.632634]%float ltac:(vm_compute; reflexivity))
               2.632634%float [2.632835]%float).
  vm_compute. reflexivity.
Defined.

Lemma plot_energy_first_bad_line_witness :
  plot_energy Py.float
    (["Current energy = -40.1"]
     ++ "  Current energy   :" :: ["Current energy = n/a"]) = Raise IndexError.
Proof.
  apply (proj1 (plot_energy_first_bad_line _ Py.float
                  ["Current energy = -40.1"] ["Current energy = n/a"]
                  "  Current energy   :"
                  ltac:(intros l Hl; vm_compute in Hl;
                        destruct Hl as [<- | []];
                        eexists; vm_compute; reflexivity)
                  ltac:(vm_compute; reflexivity))).
  vm_compute. lia.
Defined.

Lemma plot_R_padded_right_witness :
  plot_R Py.float [step_1 ++ "  "; step_2] 1 2
  = plot_R Py.float [step_1; step_2] 1 2.
Proof.
  apply (proj1 (plot_R_padded_right _ Py.float [step_1; step_2]
                  [step_1 ++ "  "; step_2] 1 2)).
  constructor; [now exists "  "|].
  constructor; [|constructor].
  exists "". split; [reflexivity|]. symmetry. apply append_nil_r.
Defined.

Lemma plot_energy_padded_witness :
  plot_energy Py.float ["    Current energy = -40.1  "]
  = plot_energy Py.float ["Current energy = -40.1"].
Proof.
  apply (proj1 (plot_energy_padded _ Py.float ["Current energy = -40.1"]
                  ["    Current energy = -40.1  "])).
  constructor; [|constructor]. now exists "    ", "  ".
Defined.



Lemma frozen_dihedral_total_tokens_witness :
  frozen_dihedral_total 10 = "2 1 7 8  10 6 1 7 9  10" /\ (10 = 10)%Z.
Proof.
  split; [reflexivity|].
  apply (proj2 (frozen_dihedral_total_tokens 10) 10%Z). reflexivity.
Defined.

Lemma torsion_scan_lists_witness :
  phi (snd (torsion_scan nat Z (fun _ _ _ lib => lib)
              (fun _ lib => (Some (Z.of_nat lib), S lib)) 0%nat))
  = [0; 10; 20; 30; 40; 50; 60; 70; 80; 90; 100; 110; 120; 130;
     140; 150; 160; 170; 180]%Z.
Proof.
  destruct (torsion_scan_lists nat Z (fun _ _ _ lib => lib)
              (fun _ lib => (Some (Z.of_nat lib), S lib)) 0%nat)
    as (_ & _ & Hdone).
  apply Hdone. vm_compute. reflexivity.
Defined.

End MoreConcrete.
